(** * pyvideosync: the orchestration of [pyvideosync/main.py]

    A shallow embedding of [main]: the overlap scan over the camera file
    groups, the cache of selected timestamps, the per-camera join of the
    NEV chunk serials, the camera rows and the NS5 samples, and the
    assembly of sub-clips.  DataFrames are lists of records in row order,
    the logger and the external calls are events of a trace, and a Python
    exception is the left summand of the result.  Integer columns are int64
    columns: arithmetic on them wraps, and a column that receives a null
    becomes a float64 column. *)

From Stdlib Require Import ZArith List String Ascii Bool Lia Permutation Sorted.
Import ListNotations.

Local Open Scope string_scope.
Local Open Scope list_scope.
Local Open Scope Z_scope.

(** String concatenation, as in the f-strings and [os.path.join]. *)
Infix "+++" := String.append (at level 60, right associativity).

(** ** Data *)

Definition timestamp := string.
Definition camera_serial := string.
Definition path := string.
Definition channel := Z.

(** One row of [nev_chunk_serial_df]. *)
Record nev_row := mk_nev_row {
  chunk_serial : Z;
  TimeStamps : Z
}.

(** One row of [videojson.get_camera_df(camera_serial)]. *)
Record camera_row := mk_camera_row {
  chunk_serial_data : Z;
  frame_id : Z;
  frame_ids_reconstructed : Z
}.

(** A camera row after the column [frame_ids_relative] is added. *)
Record rel_row := mk_rel_row {
  cam : camera_row;
  frame_ids_relative : Z
}.

(** One row of [chunk_serial_joined]: the columns of both sides. *)
Record joined_row := mk_joined_row {
  j_nev : nev_row;
  j_cam : rel_row
}.

(** One row of [ns5.get_filtered_channel_df(...)]. *)
Record sample := mk_sample {
  TimeStamp : Z;
  Amplitude : Z
}.

(** One row of [all_merged] after the column selection; the columns that
    come from the right side of the left merge are null ([None]) when no
    joined row matches. *)
Record merged_row := mk_merged_row {
  m_TimeStamp : Z;
  m_Amplitude : Z;
  m_chunk_serial : option Z;
  m_frame_id : option Z;
  m_frame_ids_reconstructed : option Z;
  m_frame_ids_relative : option Z
}.

(** A row of [all_merged] once [mp4_file] is attached. *)
Record out_row := mk_out_row {
  cols : merged_row;
  mp4_file : path
}.

(** The frame [videojson.get_camera_df(camera_serial)] returns: its rows
    when it has the columns [main] reads, or a frame without them. *)
Inductive camera_frame :=
| NoColumns
| Frame (rows : list camera_row).

(** What [main] reads of a [Videojson]. *)
Record Videojson := mk_Videojson {
  get_min_max_chunk_serial : option Z * option Z;
  get_camera_df : camera_serial -> camera_frame
}.

(** What [main] reads of a camera file group: [get_json_file] followed by
    the [Videojson] constructor, and [get_mp4_file]. *)
Record camera_file_group := mk_group {
  get_json_file : option Videojson;
  get_mp4_file : camera_serial -> option path
}.

(** ** Effects *)

Inductive level := INFO | WARNING | ERROR.

Inductive exn :=
| IndexError
| KeyError (key : timestamp)
| EmptyIndexError
| UnknownChannelError
| MediaError (what : string).

Inductive event :=
| Log (lvl : level) (msg : string)
| SaveTimestamps (timestamps : list timestamp)
| Ns5Query (ch : channel) (ts_start ts_end : Z)
| Makedirs (dir : path)
| Subclip (df_sub : list out_row) (mp4 : path) (out_dir : path)
| Concat (subclip_paths : list path) (final_path : path).

(** A computation: the events it emitted, then an exception or a value. *)
Definition M (A : Type) : Type := (list event * (exn + A))%type.

Definition ret {A} (a : A) : M A := ([], inr a).
Definition raise {A} (e : exn) : M A := ([], inl e).
Definition emit (ev : event) : M unit := ([ev], inr tt).
Definition logger (lvl : level) (msg : string) : M unit := emit (Log lvl msg).

Definition bind {A B} (c : M A) (k : A -> M B) : M B :=
  match c with
  | (evs, inl e) => (evs, inl e)
  | (evs, inr a) => let '(evs', r) := k a in (evs ++ evs', r)
  end.

Notation "x <- c ;; k" := (bind c (fun x => k))
  (at level 61, c at next level, right associativity).
Notation "c ;;; k" := (bind c (fun _ => k))
  (at level 61, right associativity).

Definition lift {A} (r : exn + A) : M A := ([], r).

Definition events {A} (c : M A) : list event := fst c.
Definition outcome {A} (c : M A) : exn + A := snd c.

(** ** The overlap scan (step 4 of [main]) *)

(** The [for timestamp, camera_file_group in camera_files.items()] loop.
    Nothing in it raises; [break] ends the recursion. *)
Fixpoint overlap_scan (nev_start_serial nev_end_serial : Z)
    (items : list (timestamp * camera_file_group))
    : list event * list timestamp :=
  match items with
  | [] => ([], [])
  | (timestamp, camera_file_group) :: rest =>
    let continue := overlap_scan nev_start_serial nev_end_serial rest in
    match get_json_file camera_file_group with
    | None =>
        (Log ERROR ("No JSON file found in group " +++ timestamp) :: fst continue,
         snd continue)
    | Some videojson =>
      match get_min_max_chunk_serial videojson with
      | (Some start_serial, Some end_serial) =>
        if end_serial <? nev_start_serial then
          (Log INFO ("No overlap found: " +++ timestamp) :: fst continue,
           snd continue)
        else if start_serial <=? nev_end_serial then
          (Log INFO ("Overlap found, timestamp: " +++ timestamp) :: fst continue,
           timestamp :: snd continue)
        else
          ([Log INFO ("Break: " +++ timestamp)], [])
      | _ =>
        (Log ERROR "No chunk serials found in JSON file" :: fst continue,
         snd continue)
      end
    end
  end.

(** The serial range of a descriptor, when its metadata resolves. *)
Definition serial_range (d : timestamp * camera_file_group) : option (Z * Z) :=
  match get_json_file (snd d) with
  | Some videojson =>
    match get_min_max_chunk_serial videojson with
    | (Some start_serial, Some end_serial) => Some (start_serial, end_serial)
    | _ => None
    end
  | None => None
  end.

Definition min_serial_exceeds (nev_end_serial : Z) (d : timestamp * camera_file_group) : bool :=
  match serial_range d with
  | Some (lo, _) => nev_end_serial <? lo
  | None => false
  end.

Definition max_serial_below (nev_start_serial : Z) (d : timestamp * camera_file_group) : bool :=
  match serial_range d with
  | Some (_, hi) => hi <? nev_start_serial
  | None => false
  end.

Definition resolved (d : timestamp * camera_file_group) : bool :=
  match serial_range d with Some _ => true | None => false end.

(** The descriptor at which the scan stops: not skipped, and starting
    beyond the reference range. *)
Definition stops_scan (nev_start_serial nev_end_serial : Z)
    (d : timestamp * camera_file_group) : bool :=
  negb (max_serial_below nev_start_serial d) && min_serial_exceeds nev_end_serial d.

(** The longest prefix none of whose elements satisfies [p]. *)
Fixpoint prefix_before {A} (p : A -> bool) (l : list A) : list A :=
  match l with
  | [] => []
  | x :: l' => if p x then [] else x :: prefix_before p l'
  end.

(** The prefix up to and including the first element that satisfies [p]. *)
Fixpoint prefix_through {A} (p : A -> bool) (l : list A) : list A :=
  match l with
  | [] => []
  | x :: l' => if p x then [x] else x :: prefix_through p l'
  end.

(** The selection as the specification words it: the prefix up to and
    including the first descriptor whose min_serial exceeds the end of the
    range, minus the descriptors whose max_serial is below its start. *)
Definition selection_as_worded (nev_start_serial nev_end_serial : Z)
    (items : list (timestamp * camera_file_group)) : list timestamp :=
  map fst (filter (fun d => negb (max_serial_below nev_start_serial d))
                  (prefix_through (min_serial_exceeds nev_end_serial) items)).

(** ** The inputs of a run *)

(** Everything [main] obtains from its collaborators: the configuration
    checks, the NEV table, the camera file groups in the order of
    [camera_files.items()], the configured cameras and channel, what
    [load_timestamps] returned, and the external NS5 and ffmpeg calls,
    each of which returns or raises. *)
Record inputs := mk_inputs {
  is_config_valid : bool;
  verify_integrity : bool;
  output_dir : path;
  nev_chunk_serial_df : list nev_row;
  camera_files : list (timestamp * camera_file_group);
  camera_serials : list camera_serial;
  ns5_channel : channel;
  load_timestamps : option (list timestamp);
  get_filtered_channel_df : channel -> Z -> Z -> exn + list sample;
  make_synced_subclip_ffmpeg : list out_row -> path -> path -> exn + path;
  ffmpeg_concat_mp4s : list path -> path -> exn + unit
}.

Definition path_join (a b : path) : path := a +++ "/" +++ b.

(** Modelled from the spec: [get_column_min_max] of [pyvideosync.utils] is
    not among the sources; the Event Index range is "computed as simple
    min/max over the loaded serials" and "fails with EmptyIndexError if zero
    rows loaded". *)
Definition get_column_min_max (df : list nev_row) : exn + (Z * Z) :=
  match map chunk_serial df with
  | [] => inl EmptyIndexError
  | x :: xs => inr (fold_left Z.min xs x, fold_left Z.max xs x)
  end.

(** Modelled from the spec: [sort_timestamps] of [pyvideosync.utils] is not
    among the sources; descriptors are taken "in ascending descriptor
    order", here the ascending order of the group timestamps. *)
Fixpoint insert_timestamp (t : timestamp) (l : list timestamp) : list timestamp :=
  match l with
  | [] => [t]
  | x :: l' => if String.leb t x then t :: l else x :: insert_timestamp t l'
  end.

Definition sort_timestamps (timestamps : list timestamp) : list timestamp :=
  fold_right insert_timestamp [] timestamps.

(** [camera_files[timestamp]]: a missing key raises. *)
Fixpoint camera_files_get (files : list (timestamp * camera_file_group))
    (t : timestamp) : exn + camera_file_group :=
  match files with
  | [] => inl (KeyError t)
  | (k, g) :: rest => if String.eqb k t then inr g else camera_files_get rest t
  end.

(** ** Selection, with the persisted timestamps (lines 71-102) *)

Definition select_timestamps (inp : inputs) (nev_start_serial nev_end_serial : Z)
    : M (list timestamp) :=
  match load_timestamps inp with
  | Some (t :: ts) =>
      logger INFO "Loaded timestamps" ;;;
      ret (t :: ts)
  | _ =>
      logger INFO "No timestamps found" ;;;
      timestamps <- (let s := overlap_scan nev_start_serial nev_end_serial
                                            (camera_files inp) in
                     (fst s, inr (snd s))) ;;
      logger INFO "timestamps" ;;;
      emit (SaveTimestamps timestamps) ;;;
      ret timestamps
  end.

(** ** The correlation join (lines 114-174) *)

(** [df.iloc[0]] and [df.iloc[-1]]: out of bounds on an empty frame. *)
Definition iloc_first {A} (df : list A) : exn + A :=
  match df with
  | [] => inl IndexError
  | x :: _ => inr x
  end.

Definition iloc_last {A} (df : list A) : exn + A :=
  match rev df with
  | [] => inl IndexError
  | x :: _ => inr x
  end.

(** Arithmetic on an int64 column wraps around. *)
Definition wrap_int64 (z : Z) : Z := (z + 2 ^ 63) mod 2 ^ 64 - 2 ^ 63.

(** Lines 124-128: the new column is anchored at the first row.  The
    column access raises on a frame without the column, the first-row
    access on a frame without rows; the subtraction and the addition are
    those of an int64 column. *)
Definition add_frame_ids_relative (camera_df : camera_frame) : exn + list rel_row :=
  match camera_df with
  | NoColumns => inl (KeyError "frame_ids_reconstructed")
  | Frame rows =>
      match iloc_first (map frame_ids_reconstructed rows) with
      | inl e => inl e
      | inr first =>
          inr (map (fun r =>
                      mk_rel_row r
                        (wrap_int64
                           (wrap_int64 (frame_ids_reconstructed r - first) + 1)))
                   rows)
      end
  end.

(** Lines 130-133. *)
Definition restrict_to_range (nev_start_serial nev_end_serial : Z)
    (camera_df : list rel_row) : list rel_row :=
  filter (fun r => (nev_start_serial <=? chunk_serial_data (cam r))
                   && (chunk_serial_data (cam r) <=? nev_end_serial))
         camera_df.

(** Lines 135-140: [merge(how="inner")] keeps the order of the left keys;
    every pair of rows with equal keys gives one row. *)
Definition inner_merge (nev_df : list nev_row) (camera_df : list rel_row)
    : list joined_row :=
  flat_map (fun n =>
              map (mk_joined_row n)
                  (filter (fun r => chunk_serial n =? chunk_serial_data (cam r))
                          camera_df))
           nev_df.

Definition null_row (s : sample) : merged_row :=
  mk_merged_row (TimeStamp s) (Amplitude s) None None None None.

Definition matched_row (s : sample) (j : joined_row) : merged_row :=
  mk_merged_row (TimeStamp s) (Amplitude s)
    (Some (chunk_serial (j_nev j)))
    (Some (frame_id (cam (j_cam j))))
    (Some (frame_ids_reconstructed (cam (j_cam j))))
    (Some (frame_ids_relative (j_cam j))).

Definition matches_of (s : sample) (joined : list joined_row) : list joined_row :=
  filter (fun j => TimeStamp s =? TimeStamps (j_nev j)) joined.

(** The value an int64 takes in a float64 column: the nearest number with
    a 53-bit significand, ties to the even one. *)
Definition to_float64 (z : Z) : Z :=
  let n := Z.abs z in
  let bits := Z.log2 n + 1 in
  if bits <=? 53 then z
  else
    let shift := bits - 53 in
    let q := Z.shiftr n shift in
    let r := n - Z.shiftl q shift in
    let half := 2 ^ (shift - 1) in
    let q' := if (half <? r) || ((r =? half) && Z.odd q) then q + 1 else q in
    Z.sgn z * Z.shiftl q' shift.

(** A metadata column that holds a null is a float64 column: its integers
    are converted. *)
Definition upcast_row (r : merged_row) : merged_row :=
  mk_merged_row (m_TimeStamp r) (m_Amplitude r)
    (option_map to_float64 (m_chunk_serial r))
    (option_map to_float64 (m_frame_id r))
    (option_map to_float64 (m_frame_ids_reconstructed r))
    (option_map to_float64 (m_frame_ids_relative r)).

Definition is_null_row (r : merged_row) : bool :=
  match m_chunk_serial r with
  | None => true
  | Some _ => false
  end.

Definition upcast_if_null (rows : list merged_row) : list merged_row :=
  if existsb is_null_row rows then map upcast_row rows else rows.

(** The rows a sample gives in the left merge: one per joined row with its
    timestamp, in the order of the joined rows, or a single row with null
    right columns. *)
Definition rows_of_sample (joined : list joined_row) (s : sample) : list merged_row :=
  match matches_of s joined with
  | [] => [null_row s]
  | ms => map (matched_row s) ms
  end.

(** Lines 150-166: [merge(how="left")] keeps every left row, in order, and
    the right columns become float64 as soon as one left row has no
    match. *)
Definition left_merge (ns5_slice : list sample) (joined : list joined_row)
    : list merged_row :=
  upcast_if_null (flat_map (rows_of_sample joined) ns5_slice).

(** [chunk_serial_joined] of one camera table. *)
Definition chunk_serial_joined_of (inp : inputs) (nev_start_serial nev_end_serial : Z)
    (camera_df : list rel_row) : list joined_row :=
  inner_merge (nev_chunk_serial_df inp)
              (restrict_to_range nev_start_serial nev_end_serial camera_df).

(** The body of the loop over [sorted_timestamps]; [None] is [continue]. *)
Definition process_timestamp (inp : inputs) (nev_start_serial nev_end_serial : Z)
    (camera_serial : camera_serial) (timestamp : timestamp)
    : M (option (list out_row)) :=
  camera_file_group <- lift (camera_files_get (camera_files inp) timestamp) ;;
  match get_json_file camera_file_group with
  | None =>
      logger ERROR ("No JSON file found in group " +++ timestamp) ;;;
      ret None
  | Some videojson =>
      camera_df <- lift (add_frame_ids_relative
                           (get_camera_df videojson camera_serial)) ;;
      let chunk_serial_joined :=
        chunk_serial_joined_of inp nev_start_serial nev_end_serial camera_df in
      logger INFO "Processing ns5 filtered channel df..." ;;;
      first <- lift (iloc_first chunk_serial_joined) ;;
      last <- lift (iloc_last chunk_serial_joined) ;;
      emit (Ns5Query (ns5_channel inp)
                     (TimeStamps (j_nev first)) (TimeStamps (j_nev last))) ;;;
      ns5_slice <-
        lift (get_filtered_channel_df inp (ns5_channel inp)
                (TimeStamps (j_nev first)) (TimeStamps (j_nev last))) ;;
      logger INFO "Merging ns5 and chunk serial df..." ;;;
      let all_merged := left_merge ns5_slice chunk_serial_joined in
      match get_mp4_file camera_file_group camera_serial with
      | None =>
          logger ERROR ("No MP4 file found in group " +++ timestamp) ;;;
          ret None
      | Some mp4_path =>
          ret (Some (map (fun r => mk_out_row r mp4_path) all_merged))
      end
  end.

(** The loop over [sorted_timestamps]: the value is [all_merged_list]. *)
Fixpoint merge_timestamps (inp : inputs) (nev_start_serial nev_end_serial : Z)
    (camera_serial : camera_serial) (sorted_timestamps : list timestamp)
    : M (list (list out_row)) :=
  match sorted_timestamps with
  | [] => ret []
  | timestamp :: rest =>
      r <- process_timestamp inp nev_start_serial nev_end_serial
                             camera_serial timestamp ;;
      all_merged_list <- merge_timestamps inp nev_start_serial nev_end_serial
                                          camera_serial rest ;;
      ret (match r with
           | Some all_merged => all_merged :: all_merged_list
           | None => all_merged_list
           end)
  end.

(** ** The segment assembly (lines 176-216) *)

(** [Series.unique()]: the distinct values in order of first appearance. *)
Definition seen_in (x : path) (seen : list path) : bool :=
  existsb (String.eqb x) seen.

Fixpoint unique_from (seen : list path) (l : list path) : list path :=
  match l with
  | [] => []
  | x :: l' =>
      if seen_in x seen then unique_from seen l'
      else x :: unique_from (x :: seen) l'
  end.

Definition unique (l : list path) : list path := unique_from [] l.

Definition rows_of_file (all_merged_df : list out_row) (mp4_path : path)
    : list out_row :=
  filter (fun r => String.eqb (mp4_file r) mp4_path) all_merged_df.

(** The loop over the distinct files: the value is [subclip_paths]. *)
Fixpoint make_subclips (inp : inputs) (all_merged_df : list out_row)
    (out_dir : path) (files : list path) : M (list path) :=
  match files with
  | [] => ret []
  | mp4_path :: rest =>
      let df_sub := rows_of_file all_merged_df mp4_path in
      emit (Subclip df_sub mp4_path out_dir) ;;;
      subclip <- lift (make_synced_subclip_ffmpeg inp df_sub mp4_path out_dir) ;;
      subclip_paths <- make_subclips inp all_merged_df out_dir rest ;;
      ret (subclip :: subclip_paths)
  end.

Definition stitched_path (inp : inputs) (camera_serial : camera_serial) : path :=
  path_join (path_join (output_dir inp) camera_serial)
            ("stitched_" +++ camera_serial +++ ".mp4").

(** Lines 208-214. *)
Definition finish (inp : inputs) (camera_serial : camera_serial)
    (subclip_paths : list path) : M path :=
  match subclip_paths with
  | [subclip] => ret subclip
  | _ =>
      let final_path := stitched_path inp camera_serial in
      emit (Concat subclip_paths final_path) ;;;
      lift (ffmpeg_concat_mp4s inp subclip_paths final_path) ;;;
      ret final_path
  end.

(** Lines 180-216, for a non-empty [all_merged_list]. *)
Definition assemble (inp : inputs) (camera_serial : camera_serial)
    (all_merged_df : list out_row) : M path :=
  logger INFO ("Final merged DataFrame head for " +++ camera_serial) ;;;
  logger INFO ("Final merged DataFrame tail for " +++ camera_serial) ;;;
  let video_output_dir := path_join (output_dir inp) camera_serial in
  emit (Makedirs video_output_dir) ;;;
  let video_output_path := path_join video_output_dir "output.mp4" in
  subclip_paths <- make_subclips inp all_merged_df
                     (path_join (output_dir inp) camera_serial)
                     (unique (map mp4_file all_merged_df)) ;;
  final_path <- finish inp camera_serial subclip_paths ;;
  logger INFO ("Saved " +++ camera_serial +++ " to " +++ video_output_path) ;;;
  ret final_path.

(** [pd.concat(all_merged_list, ignore_index=True)]: the rows of the
    tables in list order.  A metadata column that is float64 in one table
    (a table with a null) is float64 in the result: the integers of the
    other tables are converted. *)
Definition upcast_out_row (r : out_row) : out_row :=
  mk_out_row (upcast_row (cols r)) (mp4_file r).

Definition is_float_table (all_merged : list out_row) : bool :=
  existsb (fun r => is_null_row (cols r)) all_merged.

Definition pd_concat (all_merged_list : list (list out_row)) : list out_row :=
  if existsb is_float_table all_merged_list then
    List.concat
      (map (fun all_merged =>
              if is_float_table all_merged then all_merged
              else map upcast_out_row all_merged)
           all_merged_list)
  else List.concat all_merged_list.

(** The body of the loop over [camera_serials]; the value is the final
    video of the camera, [None] when the camera is skipped. *)
Definition process_camera (inp : inputs) (nev_start_serial nev_end_serial : Z)
    (sorted_timestamps : list timestamp) (camera_serial : camera_serial)
    : M (option path) :=
  all_merged_list <- merge_timestamps inp nev_start_serial nev_end_serial
                                      camera_serial sorted_timestamps ;;
  match all_merged_list with
  | [] =>
      logger WARNING ("No valid merged data for " +++ camera_serial) ;;;
      ret None
  | _ =>
      final_path <- assemble inp camera_serial (pd_concat all_merged_list) ;;
      ret (Some final_path)
  end.

(** The loop over [camera_serials]. *)
Fixpoint run_cameras (inp : inputs) (nev_start_serial nev_end_serial : Z)
    (sorted_timestamps : list timestamp) (cameras : list camera_serial)
    : M (list (camera_serial * option path)) :=
  match cameras with
  | [] => ret []
  | camera_serial :: rest =>
      out <- process_camera inp nev_start_serial nev_end_serial
                            sorted_timestamps camera_serial ;;
      outs <- run_cameras inp nev_start_serial nev_end_serial
                          sorted_timestamps rest ;;
      ret ((camera_serial, out) :: outs)
  end.

(** Step 5 from a list of selected timestamps. *)
Definition process_selected (inp : inputs) (nev_start_serial nev_end_serial : Z)
    (timestamps : list timestamp) : M (list (camera_serial * option path)) :=
  run_cameras inp nev_start_serial nev_end_serial
              (sort_timestamps timestamps) (camera_serials inp).

(** ** [main] *)

Definition main (inp : inputs) : M (list (camera_serial * option path)) :=
  if negb (is_config_valid inp) then
    logger ERROR "Config not valid, exiting to inital screen..." ;;;
    ret []
  else if negb (verify_integrity inp) then
    logger ERROR "File integrity check failed" ;;;
    ret []
  else
    logger INFO "NEV dataframe" ;;;
    range <- lift (get_column_min_max (nev_chunk_serial_df inp)) ;;
    let '(nev_start_serial, nev_end_serial) := range in
    logger INFO "Start serial, End serial" ;;;
    logger INFO "Camera serials loaded from config" ;;;
    timestamps <- select_timestamps inp nev_start_serial nev_end_serial ;;
    process_selected inp nev_start_serial nev_end_serial timestamps.

(** The media requests of a trace, and the outputs of a run. *)
Definition is_media (ev : event) : bool :=
  match ev with
  | Subclip _ _ _ | Concat _ _ => true
  | _ => false
  end.

Definition is_ns5_query (ev : event) : bool :=
  match ev with
  | Ns5Query _ _ _ => true
  | _ => false
  end.

Definition media_requests {A} (c : M A) : list event := filter is_media (events c).

(** ** Concrete runs *)

Definition group_with_range (lo hi : Z) : camera_file_group :=
  mk_group (Some (mk_Videojson (Some lo, Some hi) (fun _ => Frame [])))
           (fun _ => None).

(** The scenario of the specification: range [100, 200], descriptors
    A = [50, 150], B = [160, 250], C = [260, 300]. *)
Definition scenario_ABC : list (timestamp * camera_file_group) :=
  [("A", group_with_range 50 150);
   ("B", group_with_range 160 250);
   ("C", group_with_range 260 300)].

(** A descriptor below the range ahead of an overlapping one. *)
Definition scenario_skip : list (timestamp * camera_file_group) :=
  [("Z", group_with_range 10 90);
   ("A", group_with_range 50 150);
   ("C", group_with_range 260 300);
   ("D", group_with_range 120 130)].

(** A signal slicer for the concrete runs: one sample per timestamp of the
    inclusive range, none when the range is empty. *)
Definition dense_slicer (_ : channel) (ts_start ts_end : Z) : exn + list sample :=
  inr (map (fun k => mk_sample (ts_start + Z.of_nat k)
                               (7 * (ts_start + Z.of_nat k)))
           (seq 0 (Z.to_nat (ts_end - ts_start + 1)))).

Definition subclip_ok (_ : list out_row) (mp4_path out_dir : path) : exn + path :=
  inr (path_join out_dir ("sub_" +++ mp4_path)).


Definition concat_ok (_ : list path) (_ : path) : exn + unit := inr tt.

(** A group whose metadata carries [rows] for every camera but ["cam0"],
    for which it has no row, and whose video of camera [c] is [tag_c.mp4]. *)
Definition group_of (tag : string) (range : option Z * option Z)
    (rows : list camera_row) : camera_file_group :=
  mk_group
    (Some (mk_Videojson range
             (fun c => if String.eqb c "cam0" then Frame [] else Frame rows)))
    (fun c => Some (tag +++ "_" +++ c +++ ".mp4")).

Definition run_of (nev_df : list nev_row)
    (files : list (timestamp * camera_file_group))
    (cameras : list camera_serial) (cached : option (list timestamp))
    (subclip : list out_row -> path -> path -> exn + path) : inputs :=
  mk_inputs true true "out" nev_df files cameras 1 cached
            dense_slicer subclip concat_ok.

(** The joining scenario of the specification: rows (100, frame 1) and
    (101, frame 2), event rows (100, t=1000) and (101, t=1001). *)
Definition nev_two : list nev_row := [mk_nev_row 100 1000; mk_nev_row 101 1001].
Definition rows_two : list camera_row :=
  [mk_camera_row 100 1 41; mk_camera_row 101 2 42].
Definition files_one : list (timestamp * camera_file_group) :=
  [("20240101_100000", group_of "a" (Some 100, Some 101) rows_two)].

Definition run_two_cameras : inputs :=
  run_of nev_two files_one ["cam1"; "cam2"] None subclip_ok.

(** An event log whose range [500, 600] no descriptor overlaps. *)
Definition run_no_overlap : inputs :=
  run_of [mk_nev_row 500 1; mk_nev_row 600 2] files_one ["cam1"; "cam2"] None
         subclip_ok.

(** A camera without rows in the selected descriptor, ahead of one with rows. *)
Definition run_empty_rows : inputs :=
  run_of nev_two files_one ["cam0"; "cam1"] None subclip_ok.

(** Rows inside the reference range, none of whose serials is in the
    event log: the event log has serials 100 and 200, the camera 150. *)
Definition run_empty_join : inputs :=
  run_of [mk_nev_row 100 1000; mk_nev_row 200 2000]
         [("20240101_100000",
           group_of "a" (Some 150, Some 150) [mk_camera_row 150 1 41])]
         ["cam1"; "cam2"] None subclip_ok.

(** Two frames carrying the same chunk serial. *)
Definition run_repeated_serial : inputs :=
  run_of [mk_nev_row 100 1000]
         [("20240101_100000",
           group_of "a" (Some 100, Some 100)
                    [mk_camera_row 100 1 41; mk_camera_row 100 2 42])]
         ["cam1"] None subclip_ok.


(** Two descriptors, hence two video files per camera. *)
Definition files_two : list (timestamp * camera_file_group) :=
  [("20240101_100000", group_of "a" (Some 100, Some 100) [mk_camera_row 100 1 41]);
   ("20240101_110000", group_of "b" (Some 101, Some 101) [mk_camera_row 101 1 77])].

Definition run_two_files : inputs :=
  run_of nev_two files_two ["cam1"] None subclip_ok.

(** First row not the one with the smallest reconstructed index. *)
Definition rows_unordered : list camera_row :=
  [mk_camera_row 100 1 5; mk_camera_row 101 2 3].

(** The claims, worded as the specification words them. *)

Definition column_min (col : list Z) : option Z :=
  match col with
  | [] => None
  | x :: xs => Some (fold_left Z.min xs x)
  end.

Definition column_max (col : list Z) : option Z :=
  match col with
  | [] => None
  | x :: xs => Some (fold_left Z.max xs x)
  end.

Definition joined_timestamps (joined : list joined_row) : list Z :=
  map (fun j => TimeStamps (j_nev j)) joined.

Definition sample_of (r : out_row) : sample :=
  mk_sample (m_TimeStamp (cols r)) (m_Amplitude (cols r)).

Definition sample_of_merged (m : merged_row) : sample :=
  mk_sample (m_TimeStamp m) (m_Amplitude m).

Definition sample_eqb (a b : sample) : bool :=
  (TimeStamp a =? TimeStamp b) && (Amplitude a =? Amplitude b).

(** How many rows of [rows] carry the sample [s]. *)
Definition occurrences (s : sample) (rows : list out_row) : nat :=
  List.length (filter (fun r => sample_eqb (sample_of r) s) rows).

Definition null_metadata (r : merged_row) : Prop :=
  m_chunk_serial r = None /\ m_frame_id r = None
  /\ m_frame_ids_reconstructed r = None /\ m_frame_ids_relative r = None.

(** The rows that the joining scenario and the repeated-serial run give. *)
Definition rows_scenario : list out_row :=
  [mk_out_row (mk_merged_row 1000 7000 (Some 100) (Some 1) (Some 41) (Some 1))
              "a_cam1.mp4";
   mk_out_row (mk_merged_row 1001 7007 (Some 101) (Some 2) (Some 42) (Some 2))
              "a_cam1.mp4"].

Definition rows_repeated : list out_row :=
  [mk_out_row (mk_merged_row 1000 7000 (Some 100) (Some 1) (Some 41) (Some 1))
              "a_cam1.mp4";
   mk_out_row (mk_merged_row 1000 7000 (Some 100) (Some 2) (Some 42) (Some 2))
              "a_cam1.mp4"].

Definition events_of_join (ts_start ts_end : Z) : list event :=
  [Log INFO "Processing ns5 filtered channel df...";
   Ns5Query 1 ts_start ts_end;
   Log INFO "Merging ns5 and chunk serial df..."].

(** The concatenated rows of the run with two descriptors. *)
Definition rows_two_files : list out_row :=
  [mk_out_row (mk_merged_row 1000 7000 (Some 100) (Some 1) (Some 41) (Some 1))
              "a_cam1.mp4";
   mk_out_row (mk_merged_row 1001 7007 (Some 101) (Some 1) (Some 77) (Some 1))
              "b_cam1.mp4"].


(** ** Further notions *)

(** A descriptor whose serial range meets the reference range. *)
Definition overlaps (nev_start_serial nev_end_serial : Z)
    (d : timestamp * camera_file_group) : bool :=
  match serial_range d with
  | Some (lo, hi) => (nev_start_serial <=? hi) && (lo <=? nev_end_serial)
  | None => false
  end.

(** The chronological premise of the early exit: a later descriptor does
    not start at a smaller serial. *)
Definition starts_no_later (d d' : timestamp * camera_file_group) : Prop :=
  forall lo hi lo' hi',
    serial_range d = Some (lo, hi) ->
    serial_range d' = Some (lo', hi') ->
    lo <= lo'.

Definition is_save (ev : event) : bool :=
  match ev with
  | SaveTimestamps _ => true
  | _ => false
  end.

(** A cache that names a group the camera directory no longer has. *)
Definition run_stale_cache : inputs :=
  run_of nev_two files_one ["cam1"; "cam2"]
         (Some ["20240101_100000"; "19990101_000000"]) subclip_ok.

(** The second run after [run_two_cameras]: the cache holds what it saved. *)
Definition run_second : inputs :=
  run_of nev_two files_one ["cam1"; "cam2"] (Some ["20240101_100000"]) subclip_ok.

(** A group without video for any camera. *)
Definition group_without_mp4 (range : option Z * option Z)
    (rows : list camera_row) : camera_file_group :=
  mk_group (Some (mk_Videojson range (fun _ => Frame rows))) (fun _ => None).

Definition run_without_mp4 : inputs :=
  run_of nev_two
         [("20240101_100000", group_without_mp4 (Some 100, Some 101) rows_two)]
         ["cam1"] None subclip_ok.

(** A signal without samples in the queried range. *)
Definition run_silent_signal : inputs :=
  mk_inputs true true "out" nev_two files_one ["cam1"] 1 None
            (fun _ _ _ => inr []) subclip_ok concat_ok.

(** ** Notions for the revised statements *)

(** A sample without a joined row at its timestamp. *)
Definition has_no_match (joined : list joined_row) (s : sample) : bool :=
  match matches_of s joined with
  | [] => true
  | _ :: _ => false
  end.

(** The integers a float64 holds exactly, whatever their last bits. *)
Definition float64_exact (z : Z) : Prop := Z.abs z <= 2 ^ 53.

Definition metadata_exact (j : joined_row) : Prop :=
  float64_exact (chunk_serial (j_nev j))
  /\ float64_exact (frame_id (cam (j_cam j)))
  /\ float64_exact (frame_ids_reconstructed (cam (j_cam j)))
  /\ float64_exact (frame_ids_relative (j_cam j)).

(** The table a timestamp contributes for a camera, if any, and whether
    the loop body raises on it. *)
Definition table_of (inp : inputs) (s e : Z) (c : camera_serial) (t : timestamp)
    : list (list out_row) :=
  match outcome (process_timestamp inp s e c t) with
  | inr (Some all_merged) => [all_merged]
  | _ => []
  end.


(** Two frames of the same serial, and a sample between two events. *)
Definition run_sparse_events : inputs :=
  run_of [mk_nev_row 100 1000; mk_nev_row 101 1002]
         [("20240101_100000",
           group_of "a" (Some 100, Some 101)
                    [mk_camera_row 100 1 41; mk_camera_row 100 2 42;
                     mk_camera_row 101 3 43])]
         ["cam1"] None subclip_ok.

Definition rows_sparse : list out_row :=
  [mk_out_row (mk_merged_row 1000 7000 (Some 100) (Some 1) (Some 41) (Some 1))
              "a_cam1.mp4";
   mk_out_row (mk_merged_row 1000 7000 (Some 100) (Some 2) (Some 42) (Some 2))
              "a_cam1.mp4";
   mk_out_row (mk_merged_row 1001 7007 None None None None) "a_cam1.mp4";
   mk_out_row (mk_merged_row 1002 7014 (Some 101) (Some 3) (Some 43) (Some 3))
              "a_cam1.mp4"].

Definition is_warning (ev : event) : bool :=
  match ev with
  | Log WARNING _ => true
  | _ => false
  end.

Definition events_of_missing_mp4 : list event :=
  events_of_join 1000 1001
  ++ [Log ERROR "No MP4 file found in group 20240101_100000"].

(** * Properties *)

(** ** The overlap scan *)

Lemma prefix_before_split {A} (p : A -> bool) (l : list A) :
  exists rest, l = prefix_before p l ++ rest
               /\ forallb (fun x => negb (p x)) (prefix_before p l) = true
               /\ match rest with [] => True | x :: _ => p x = true end.
Proof.
  induction l as [|x l IH]; simpl.
  - exists []. auto.
  - destruct (p x) eqn:Hp.
    + exists (x :: l). simpl. auto.
    + destruct IH as (rest & Hl & Hall & Hrest).
      exists rest. simpl. rewrite Hp. simpl.
      split; [f_equal; exact Hl | split; assumption].
Qed.

Lemma overlap_scan_cons (s e : Z) (d : timestamp * camera_file_group)
    (rest : list (timestamp * camera_file_group)) :
  overlap_scan s e (d :: rest)
  = let continue := overlap_scan s e rest in
    match serial_range d with
    | Some (lo, hi) =>
        if hi <? s then
          (Log INFO ("No overlap found: " +++ fst d) :: fst continue, snd continue)
        else if lo <=? e then
          (Log INFO ("Overlap found, timestamp: " +++ fst d) :: fst continue,
           fst d :: snd continue)
        else ([Log INFO ("Break: " +++ fst d)], [])
    | None =>
        match get_json_file (snd d) with
        | None =>
            (Log ERROR ("No JSON file found in group " +++ fst d) :: fst continue,
             snd continue)
        | Some _ =>
            (Log ERROR "No chunk serials found in JSON file" :: fst continue,
             snd continue)
        end
    end.
Proof.
  destruct d as [t [[[[[lo|] [hi|]] df]|] mp4]]; reflexivity.
Qed.

Lemma overlap_scan_selected (s e : Z) (items : list (timestamp * camera_file_group)) :
  snd (overlap_scan s e items)
  = map fst (filter (fun d => resolved d && negb (max_serial_below s d))
                    (prefix_before (stops_scan s e) items)).
Proof.
  induction items as [|d rest IH]; [reflexivity|].
  rewrite overlap_scan_cons. cbn [prefix_before].
  unfold stops_scan, resolved, max_serial_below, min_serial_exceeds.
  destruct (serial_range d) as [[lo hi]|] eqn:Hr.
  - destruct (hi <? s) eqn:Hhi; cbn [negb andb].
    + cbn [filter]. rewrite Hr, Hhi.
      cbn [negb andb]. exact IH.
    + destruct (lo <=? e) eqn:Hlo.
      * replace (e <? lo) with false by lia.
        cbn [filter]. rewrite Hr, Hhi. cbn [negb andb map snd]. f_equal. exact IH.
      * replace (e <? lo) with true by lia. reflexivity.
  - cbn [negb andb filter]. rewrite Hr. cbn [andb].
    destruct (get_json_file (snd d)); exact IH.
Qed.

(** C1 (as amended).  The scan selects the descriptors of the longest
    prefix that stops strictly before the first descriptor that is not
    skipped and whose min_serial exceeds the end of the reference range,
    minus the descriptors whose max_serial is below the start of the range
    and those whose metadata or serials do not resolve.  A descriptor with
    max_serial below the start is logged ("No overlap found", at level
    info) and the scan goes on with the rest; the first unskipped
    descriptor with min_serial beyond the end is logged ("Break") and ends
    the scan without being selected. *)
Theorem C1_overlap_scan_selection (s e : Z)
    (items : list (timestamp * camera_file_group)) :
  snd (overlap_scan s e items)
  = map fst (filter (fun d => resolved d && negb (max_serial_below s d))
                    (prefix_before (stops_scan s e) items))
  /\ (exists rest,
        items = prefix_before (stops_scan s e) items ++ rest
        /\ forallb (fun d => negb (stops_scan s e d))
                   (prefix_before (stops_scan s e) items) = true
        /\ match rest with
           | [] => True
           | d :: _ => stops_scan s e d = true
           end)
  /\ (forall d rest,
        overlap_scan s e (d :: rest)
        = let continue := overlap_scan s e rest in
          if max_serial_below s d then
            (Log INFO ("No overlap found: " +++ fst d) :: fst continue,
             snd continue)
          else if stops_scan s e d then
            ([Log INFO ("Break: " +++ fst d)], [])
          else if resolved d then
            (Log INFO ("Overlap found, timestamp: " +++ fst d) :: fst continue,
             fst d :: snd continue)
          else
            (Log ERROR (match get_json_file (snd d) with
                        | None => "No JSON file found in group " +++ fst d
                        | Some _ => "No chunk serials found in JSON file"
                        end) :: fst continue,
             snd continue)).
Proof.
  split; [apply overlap_scan_selected|].
  split; [apply prefix_before_split|].
  intros d rest. rewrite overlap_scan_cons.
  unfold stops_scan, resolved, max_serial_below, min_serial_exceeds.
  cbv zeta.
  destruct (serial_range d) as [[lo hi]|].
  - destruct (hi <? s); [reflexivity|].
    cbn [negb andb].
    destruct (lo <=? e) eqn:Hlo.
    + replace (e <? lo) with false by lia. reflexivity.
    + replace (e <? lo) with true by lia. reflexivity.
  - cbn [negb andb]. destruct (get_json_file (snd d)); reflexivity.
Qed.

(** C1, counterexample.  On the scenario of the specification (range
    [100, 200]; A = [50, 150], B = [160, 250], C = [260, 300]) the scan
    selects A and B, while the prefix up to and including the first
    descriptor whose min_serial exceeds 200, minus the descriptors below
    100, is A, B, C. *)
Lemma C1_counterexample :
  snd (overlap_scan 100 200 scenario_ABC) = ["A"; "B"]
  /\ selection_as_worded 100 200 scenario_ABC = ["A"; "B"; "C"]
  /\ snd (overlap_scan 100 200 scenario_ABC)
     <> selection_as_worded 100 200 scenario_ABC.
Proof.
  repeat split; try reflexivity.
  vm_compute. discriminate.
Qed.

(** The second scenario: a descriptor below the range is skipped and the
    scan goes on; the scan ends at C, so D is never looked at. *)
Example overlap_scan_skip_then_break :
  overlap_scan 100 200 scenario_skip
  = ([Log INFO "No overlap found: Z";
      Log INFO "Overlap found, timestamp: A";
      Log INFO "Break: C"],
     ["A"]).
Proof. reflexivity. Qed.

(** ** Computations *)

Lemma bind_inr {A B} (evs : list event) (a : A) (k : A -> M B) :
  bind (evs, inr a) k = (evs ++ fst (k a), snd (k a)).
Proof. unfold bind. destruct (k a). reflexivity. Qed.

Lemma bind_inl {A B} (evs : list event) (e : exn) (k : A -> M B) :
  bind (evs, inl e) k = (evs, inl e).
Proof. reflexivity. Qed.

Lemma bind_outcome_inl {A B} (c : M A) (k : A -> M B) (e : exn) :
  snd c = inl e -> bind c k = (fst c, inl e).
Proof. destruct c as [evs r]; simpl; intros ->; reflexivity. Qed.

Lemma bind_outcome_inr {A B} (c : M A) (k : A -> M B) (a : A) :
  snd c = inr a -> bind c k = (fst c ++ fst (k a), snd (k a)).
Proof. destruct c as [evs r]; simpl; intros ->; apply bind_inr. Qed.

Example main_two_cameras :
  outcome (main run_two_cameras)
  = inr [("cam1", Some "out/cam1/sub_a_cam1.mp4");
         ("cam2", Some "out/cam2/sub_a_cam2.mp4")].
Proof. vm_compute. reflexivity. Qed.

(** ** The persisted selection *)

(** C9.  When the persisted timestamps load to a non-empty list, the
    selection is that list as it stands and the only event is the log of
    the load: no descriptor is scanned and nothing is saved.  Two runs with
    the same non-empty list select the same timestamps whatever their
    serial ranges and camera files are. *)
Theorem C9_cached_selection (inp1 inp2 : inputs) (s1 e1 s2 e2 : Z)
    (cached : list timestamp) :
  load_timestamps inp1 = Some cached ->
  load_timestamps inp2 = Some cached ->
  cached <> [] ->
  select_timestamps inp1 s1 e1 = ([Log INFO "Loaded timestamps"], inr cached)
  /\ select_timestamps inp2 s2 e2 = select_timestamps inp1 s1 e1.
Proof.
  intros H1 H2 Hne. unfold select_timestamps. rewrite H1, H2.
  destruct cached as [|t ts]; [contradiction|].
  split; reflexivity.
Qed.

Lemma C9_cached_selection_witness :
  select_timestamps
    (run_of nev_two files_one ["cam1"] (Some ["20231231_235959"]) subclip_ok)
    100 101
  = ([Log INFO "Loaded timestamps"], inr ["20231231_235959"])
  /\ select_timestamps
       (run_of [mk_nev_row 7 1] [] ["cam1"] (Some ["20231231_235959"]) subclip_ok)
       7 7
     = select_timestamps
         (run_of nev_two files_one ["cam1"] (Some ["20231231_235959"]) subclip_ok)
         100 101.
Proof.
  apply (C9_cached_selection _ _ 100 101 7 7 ["20231231_235959"]);
    [reflexivity | reflexivity | discriminate].
Defined.

(** ** The relative frame index *)

Lemma fold_min_le (xs : list Z) (a : Z) :
  fold_left Z.min xs a <= a /\ Forall (fun x => fold_left Z.min xs a <= x) xs.
Proof.
  revert a. induction xs as [|x xs IH]; intros a; simpl.
  - split; [lia | constructor].
  - destruct (IH (Z.min a x)) as [Hle Hall]. split; [lia|].
    constructor; [lia | exact Hall].
Qed.

Lemma fold_min_lower (xs : list Z) (a : Z) :
  Forall (fun x => a <= x) xs -> fold_left Z.min xs a = a.
Proof.
  revert a. induction xs as [|x xs IH]; intros a Hall; simpl; [reflexivity|].
  inversion Hall; subst. replace (Z.min a x) with a by lia. apply IH. assumption.
Qed.

Lemma fold_min_eq_iff (xs : list Z) (a : Z) :
  fold_left Z.min xs a = a <-> Forall (fun x => a <= x) xs.
Proof.
  split; [|apply fold_min_lower].
  intros Heq. destruct (fold_min_le xs a) as [_ Hall].
  rewrite Heq in Hall. exact Hall.
Qed.

Lemma wrap_int64_in_range (z : Z) :
  - 2 ^ 63 <= z < 2 ^ 63 -> wrap_int64 z = z.
Proof.
  intros Hz. unfold wrap_int64.
  rewrite Z.mod_small; lia.
Qed.

Lemma wrap_int64_twice (a b : Z) :
  wrap_int64 (wrap_int64 a + b) = wrap_int64 (a + b).
Proof.
  unfold wrap_int64.
  replace ((a + 2 ^ 63) mod 2 ^ 64 - 2 ^ 63 + b + 2 ^ 63)
    with ((a + 2 ^ 63) mod 2 ^ 64 + b) by lia.
  rewrite Zplus_mod_idemp_l. f_equal. f_equal. lia.
Qed.

Lemma add_frame_ids_relative_values (r : camera_row) (rs : list camera_row) :
  add_frame_ids_relative (Frame (r :: rs))
  = inr (map (fun x =>
                mk_rel_row x
                  (wrap_int64 (frame_ids_reconstructed x
                               - frame_ids_reconstructed r + 1)))
             (r :: rs)).
Proof.
  unfold add_frame_ids_relative. cbn [iloc_first map]. f_equal.
  change (mk_rel_row r ?a :: map ?f rs) with (map f (r :: rs)).
  apply map_ext. intros x. rewrite wrap_int64_twice. reflexivity.
Qed.

(** C5 (as amended).  For a non-empty row set the first row's
    relative_frame_index is 1 and every row's is its reconstructed index
    minus the first row's plus 1, in the wrapping arithmetic of an int64
    column.  The minimum over the row set is 1 exactly when no row's
    relative index is below 1; when no difference leaves the int64 range,
    that is exactly when no row has a reconstructed index below the first
    row's. *)
Theorem C5_relative_frame_index (r : camera_row) (rs : list camera_row) :
  exists df,
    add_frame_ids_relative (Frame (r :: rs)) = inr df
    /\ map cam df = r :: rs
    /\ map frame_ids_relative df
       = map (fun x => wrap_int64 (frame_ids_reconstructed x
                                   - frame_ids_reconstructed r + 1))
             (r :: rs)
    /\ option_map frame_ids_relative (hd_error df) = Some 1
    /\ (column_min (map frame_ids_relative df) = Some 1
        <-> Forall (fun x => 1 <= wrap_int64 (frame_ids_reconstructed x
                                              - frame_ids_reconstructed r + 1))
                   rs)
    /\ (Forall (fun x => - 2 ^ 63 <= frame_ids_reconstructed x
                                     - frame_ids_reconstructed r + 1 < 2 ^ 63)
               rs ->
        (column_min (map frame_ids_relative df) = Some 1
         <-> Forall (fun x => frame_ids_reconstructed r <= frame_ids_reconstructed x)
                    rs)).
Proof.
  eexists. split; [apply add_frame_ids_relative_values|].
  assert (Hfirst : wrap_int64 (frame_ids_reconstructed r
                               - frame_ids_reconstructed r + 1) = 1).
  { replace (frame_ids_reconstructed r - frame_ids_reconstructed r + 1) with 1
      by lia. reflexivity. }
  assert (Hmin : column_min
                   (map frame_ids_relative
                      (map (fun x =>
                              mk_rel_row x
                                (wrap_int64 (frame_ids_reconstructed x
                                             - frame_ids_reconstructed r + 1)))
                           (r :: rs))) = Some 1
                 <-> Forall (fun x => 1 <= wrap_int64 (frame_ids_reconstructed x
                                                       - frame_ids_reconstructed r + 1))
                            rs).
  { cbn [map frame_ids_relative column_min]. rewrite Hfirst, map_map.
    cbn [frame_ids_relative]. split.
    - intros [= H]. apply fold_min_eq_iff in H. rewrite Forall_map in H. exact H.
    - intros H. f_equal. apply fold_min_eq_iff. rewrite Forall_map. exact H. }
  split; [cbn [map cam]; f_equal; rewrite map_map; apply map_id|].
  split; [rewrite map_map; reflexivity|].
  split; [cbn; f_equal; exact Hfirst|].
  split; [exact Hmin|].
  intros Hrange. rewrite Hmin. split; intros H.
  - rewrite Forall_forall in *. intros x Hx.
    specialize (H x Hx). specialize (Hrange x Hx).
    rewrite wrap_int64_in_range in H by exact Hrange. lia.
  - rewrite Forall_forall in *. intros x Hx.
    specialize (H x Hx). specialize (Hrange x Hx).
    rewrite wrap_int64_in_range by exact Hrange. lia.
Qed.

Lemma C5_relative_frame_index_witness :
  exists df,
    add_frame_ids_relative (Frame rows_two) = inr df
    /\ column_min (map frame_ids_relative df) = Some 1.
Proof.
  destruct (C5_relative_frame_index (mk_camera_row 100 1 41) [mk_camera_row 101 2 42])
    as (df & Hdf & _ & _ & _ & _ & Hmin).
  exists df. split; [exact Hdf|].
  apply Hmin.
  - repeat constructor; cbn; lia.
  - repeat constructor; cbn; lia.
Defined.

(** C5, counterexample.  With reconstructed indices 5 then 3 the relative
    indices are 1 and -1: the minimum is -1. *)
Lemma C5_counterexample :
  exists df,
    add_frame_ids_relative (Frame rows_unordered) = inr df
    /\ map frame_ids_relative df = [1; -1]
    /\ column_min (map frame_ids_relative df) = Some (-1)
    /\ column_min (map frame_ids_relative df) <> Some 1.
Proof.
  eexists. split; [reflexivity|]. repeat split. discriminate.
Qed.

(** At the end of the int64 range the subtraction wraps: reconstructed
    indices 0 then 2^63 - 1 give relative indices 1 and -2^63. *)
Example relative_frame_index_wraps :
  add_frame_ids_relative
    (Frame [mk_camera_row 100 1 0; mk_camera_row 101 2 (2 ^ 63 - 1)])
  = inr [mk_rel_row (mk_camera_row 100 1 0) 1;
         mk_rel_row (mk_camera_row 101 2 (2 ^ 63 - 1)) (- 2 ^ 63)].
Proof. vm_compute. reflexivity. Qed.

(** ** The loop over the selected timestamps *)

Lemma process_timestamp_no_media (inp : inputs) (s e : Z)
    (c : camera_serial) (t : timestamp) :
  filter is_media (events (process_timestamp inp s e c t)) = [].
Proof.
  unfold process_timestamp, events, lift, logger, emit, ret.
  destruct (camera_files_get (camera_files inp) t) as [ex|g]; [reflexivity|].
  rewrite bind_inr.
  destruct (get_json_file g) as [vj|]; [|reflexivity].
  destruct (add_frame_ids_relative (get_camera_df vj c))
    as [ex|camera_df]; [reflexivity|].
  rewrite bind_inr, bind_inr.
  destruct (iloc_first (chunk_serial_joined_of inp s e camera_df))
    as [ex|first]; [reflexivity|].
  rewrite bind_inr.
  destruct (iloc_last (chunk_serial_joined_of inp s e camera_df))
    as [ex|last]; [reflexivity|].
  rewrite bind_inr, bind_inr.
  destruct (get_filtered_channel_df inp (ns5_channel inp)
              (TimeStamps (j_nev first)) (TimeStamps (j_nev last)))
    as [ex|ns5_slice]; [reflexivity|].
  rewrite bind_inr, bind_inr.
  destruct (get_mp4_file g c); reflexivity.
Qed.

Lemma merge_timestamps_no_media (inp : inputs) (s e : Z)
    (c : camera_serial) (sorted_timestamps : list timestamp) :
  filter is_media
         (events (merge_timestamps inp s e c sorted_timestamps)) = [].
Proof.
  induction sorted_timestamps as [|t rest IH]; [reflexivity|].
  cbn [merge_timestamps].
  pose proof (process_timestamp_no_media inp s e c t) as Hp.
  destruct (process_timestamp inp s e c t) as [evs [ex|r]];
    unfold events in *; cbn [fst] in *; [exact Hp|].
  rewrite bind_inr.
  destruct (merge_timestamps inp s e c rest) as [evs' [ex|rs]];
    cbn [fst] in *.
  - cbn. rewrite filter_app, Hp, IH. reflexivity.
  - rewrite bind_inr. cbn. rewrite app_nil_r, filter_app, Hp, IH. reflexivity.
Qed.

Lemma run_cameras_cons (inp : inputs) (s e : Z) (sorted_timestamps : list timestamp)
    (c : camera_serial) (rest : list camera_serial) :
  run_cameras inp s e sorted_timestamps (c :: rest)
  = let here := process_camera inp s e sorted_timestamps c in
    let after := run_cameras inp s e sorted_timestamps rest in
    match snd here with
    | inl ex => (fst here, inl ex)
    | inr out =>
        (fst here ++ fst after,
         match snd after with
         | inl ex => inl ex
         | inr outs => inr ((c, out) :: outs)
         end)
    end.
Proof.
  cbn [run_cameras]. cbv zeta.
  destruct (process_camera inp s e sorted_timestamps c)
    as [evs [ex|out]]; [reflexivity|].
  rewrite bind_inr. cbn [fst snd].
  destruct (run_cameras inp s e sorted_timestamps rest) as [evs' [ex|outs]];
    [reflexivity|].
  rewrite bind_inr. cbn. rewrite app_nil_r. reflexivity.
Qed.

Lemma merge_timestamps_nil_inv (inp : inputs) (s e : Z) (c : camera_serial)
    (sorted_timestamps : list timestamp) (evs : list event) :
  merge_timestamps inp s e c sorted_timestamps = (evs, inr []) ->
  Forall (fun t => outcome (process_timestamp inp s e c t) = inr None)
         sorted_timestamps.
Proof.
  revert evs. induction sorted_timestamps as [|t rest IH]; intros evs;
    [constructor|].
  cbn [merge_timestamps]. intros H.
  destruct (process_timestamp inp s e c t) as [evs1 [ex|r]] eqn:Hp; [discriminate|].
  rewrite bind_inr in H.
  destruct (merge_timestamps inp s e c rest) as [evs2 [ex|rs]]; [discriminate|].
  rewrite bind_inr in H. cbn in H. injection H as _ Hnil.
  destruct r as [df|]; [discriminate|]. subst rs.
  constructor; [unfold outcome; rewrite Hp; reflexivity|].
  apply (IH evs2). reflexivity.
Qed.

(** X15.  When the loop over the selected descriptors ends with an empty
    [all_merged_list], which it does only when every selected timestamp
    was passed over (in particular when nothing was selected), the camera
    gets no final output and no media request, the warning "No valid merged
    data" is logged, and the run goes on with the remaining cameras. *)
Theorem no_merged_data_is_skipped (inp : inputs) (s e : Z)
    (sorted_timestamps : list timestamp)
    (c : camera_serial) (rest : list camera_serial)
    (evs : list event) :
  merge_timestamps inp s e c sorted_timestamps = (evs, inr []) ->
  Forall (fun t => outcome (process_timestamp inp s e c t) = inr None)
         sorted_timestamps
  /\ process_camera inp s e sorted_timestamps c
     = (evs ++ [Log WARNING ("No valid merged data for " +++ c)], inr None)
  /\ media_requests (process_camera inp s e sorted_timestamps c) = []
  /\ run_cameras inp s e sorted_timestamps (c :: rest)
     = ((evs ++ [Log WARNING ("No valid merged data for " +++ c)])
          ++ events (run_cameras inp s e sorted_timestamps rest),
        match outcome (run_cameras inp s e sorted_timestamps rest) with
        | inl ex => inl ex
        | inr outs => inr ((c, None) :: outs)
        end)
  /\ process_camera inp s e [] c
     = ([Log WARNING ("No valid merged data for " +++ c)], inr None).
Proof.
  intros Hm.
  split; [apply (merge_timestamps_nil_inv _ _ _ _ _ _ Hm)|].
  assert (Hp : process_camera inp s e sorted_timestamps c
               = (evs ++ [Log WARNING ("No valid merged data for " +++ c)],
                  inr None)).
  { unfold process_camera. rewrite Hm, bind_inr. reflexivity. }
  split; [exact Hp|].
  split.
  - unfold media_requests, events. rewrite Hp. cbn [fst].
    rewrite filter_app.
    pose proof (merge_timestamps_no_media inp s e c sorted_timestamps) as Hn.
    rewrite Hm in Hn. unfold events in Hn. cbn [fst] in Hn. rewrite Hn. reflexivity.
  - split; [|reflexivity].
    rewrite run_cameras_cons, Hp. reflexivity.
Qed.

(** A descriptor without video for the camera. *)
Lemma no_merged_data_is_skipped_witness :
  Forall (fun t => outcome (process_timestamp run_without_mp4 100 101 "cam1" t)
                   = inr None)
         ["20240101_100000"]
  /\ process_camera run_without_mp4 100 101 ["20240101_100000"] "cam1"
     = (events_of_missing_mp4 ++ [Log WARNING ("No valid merged data for " +++ "cam1")],
        inr None)
  /\ media_requests (process_camera run_without_mp4 100 101 ["20240101_100000"] "cam1")
     = []
  /\ run_cameras run_without_mp4 100 101 ["20240101_100000"] ("cam1" :: ["cam2"])
     = ((events_of_missing_mp4
           ++ [Log WARNING ("No valid merged data for " +++ "cam1")])
          ++ events (run_cameras run_without_mp4 100 101 ["20240101_100000"] ["cam2"]),
        match outcome (run_cameras run_without_mp4 100 101 ["20240101_100000"]
                                   ["cam2"]) with
        | inl ex => inl ex
        | inr outs => inr (("cam1", None) :: outs)
        end)
  /\ process_camera run_without_mp4 100 101 [] "cam1"
     = ([Log WARNING ("No valid merged data for " +++ "cam1")], inr None).
Proof.
  apply (no_merged_data_is_skipped run_without_mp4 100 101 ["20240101_100000"]
           "cam1" ["cam2"] events_of_missing_mp4).
  vm_compute. reflexivity.
Defined.

(** No descriptor overlaps the range: a warning per camera, no output, and
    the run ends normally. *)
Example main_no_overlap :
  main run_no_overlap
  = ([Log INFO "NEV dataframe"; Log INFO "Start serial, End serial";
      Log INFO "Camera serials loaded from config";
      Log INFO "No timestamps found";
      Log INFO "No overlap found: 20240101_100000";
      Log INFO "timestamps"; SaveTimestamps [];
      Log WARNING "No valid merged data for cam1";
      Log WARNING "No valid merged data for cam2"],
     inr [("cam1", None); ("cam2", None)]).
Proof. vm_compute. reflexivity. Qed.

(** ** Empty tables *)

(** C2, on the code.  A camera without rows in a selected descriptor: the
    first-row access of line 126 raises and [main] ends with that
    exception; the descriptor is not skipped and the next camera, which has
    rows, is never reached. *)
Theorem C2_empty_rows_raise :
  process_timestamp run_empty_rows 100 101 "cam0" "20240101_100000"
  = ([], inl IndexError)
  /\ main run_empty_rows
     = ([Log INFO "NEV dataframe"; Log INFO "Start serial, End serial";
         Log INFO "Camera serials loaded from config";
         Log INFO "No timestamps found";
         Log INFO "Overlap found, timestamp: 20240101_100000";
         Log INFO "timestamps"; SaveTimestamps ["20240101_100000"]],
        inl IndexError)
  /\ outcome (process_camera run_empty_rows 100 101 ["20240101_100000"] "cam1")
     = inr (Some "out/cam1/sub_a_cam1.mp4").
Proof. repeat split; vm_compute; reflexivity. Qed.

(** C3, on the code.  Rows inside the reference range whose serial is not
    in the event log: the inner join is empty, the first-row access of
    line 145 raises before the signal is queried, and [main] ends with that
    exception instead of skipping the descriptor. *)
Theorem C3_empty_join_raise :
  process_timestamp run_empty_join 100 200 "cam1" "20240101_100000"
  = ([Log INFO "Processing ns5 filtered channel df..."], inl IndexError)
  /\ main run_empty_join
     = ([Log INFO "NEV dataframe"; Log INFO "Start serial, End serial";
         Log INFO "Camera serials loaded from config";
         Log INFO "No timestamps found";
         Log INFO "Overlap found, timestamp: 20240101_100000";
         Log INFO "timestamps"; SaveTimestamps ["20240101_100000"];
         Log INFO "Processing ns5 filtered channel df..."],
        inl IndexError)
  /\ filter is_ns5_query (events (main run_empty_join)) = [].
Proof. repeat split; vm_compute; reflexivity. Qed.

(** C8, on the code.  A camera whose only selected descriptor yields no
    usable data because its table is empty, or because its join is empty:
    the descriptor contributes no table, yet the loop over the descriptors
    raises instead of ending with an empty [all_merged_list], so the guard
    of lines 176-178 is not reached: no warning is logged and [main] ends
    with the exception instead of going on with the next camera. *)
Theorem C8_no_usable_data_raises :
  table_of run_empty_rows 100 101 "cam0" "20240101_100000" = []
  /\ process_camera run_empty_rows 100 101 ["20240101_100000"] "cam0"
     = ([], inl IndexError)
  /\ filter is_warning (events (main run_empty_rows)) = []
  /\ outcome (main run_empty_rows) = inl IndexError
  /\ table_of run_empty_join 100 200 "cam1" "20240101_100000" = []
  /\ process_camera run_empty_join 100 200 ["20240101_100000"] "cam1"
     = ([Log INFO "Processing ns5 filtered channel df..."], inl IndexError)
  /\ filter is_warning (events (main run_empty_join)) = []
  /\ outcome (main run_empty_join) = inl IndexError.
Proof. repeat split; vm_compute; reflexivity. Qed.

(** ** The left merge with the signal *)

Lemma sample_eta (s : sample) : mk_sample (TimeStamp s) (Amplitude s) = s.
Proof. destruct s; reflexivity. Qed.

Lemma upcast_if_null_samples (rows : list merged_row) :
  map sample_of_merged (upcast_if_null rows) = map sample_of_merged rows.
Proof.
  unfold upcast_if_null. destruct (existsb is_null_row rows); [|reflexivity].
  rewrite map_map. reflexivity.
Qed.

Lemma map_matched_row_samples (s : sample) (ms : list joined_row) :
  map sample_of_merged (map (matched_row s) ms) = repeat s (List.length ms).
Proof.
  induction ms as [|j ms IH]; [reflexivity|].
  cbn [map List.length repeat]. rewrite IH.
  unfold sample_of_merged at 1. cbn. rewrite sample_eta. reflexivity.
Qed.

Lemma left_merge_samples (ns5_slice : list sample) (joined : list joined_row) :
  map sample_of_merged (left_merge ns5_slice joined)
  = flat_map (fun s => repeat s (Nat.max 1 (List.length (matches_of s joined))))
             ns5_slice.
Proof.
  unfold left_merge. rewrite upcast_if_null_samples.
  induction ns5_slice as [|s rest IH]; [reflexivity|].
  cbn [flat_map]. rewrite map_app, IH. f_equal.
  unfold rows_of_sample.
  destruct (matches_of s joined) as [|j ms] eqn:Hm.
  - cbn. unfold sample_of_merged. cbn. rewrite sample_eta. reflexivity.
  - rewrite map_matched_row_samples. reflexivity.
Qed.

Lemma matches_at_most_one (s : sample) (joined : list joined_row) :
  NoDup (joined_timestamps joined) ->
  (List.length (matches_of s joined) <= 1)%nat.
Proof.
  unfold matches_of, joined_timestamps.
  induction joined as [|j joined IH]; intros Hnd; cbn [map filter List.length] in *.
  - lia.
  - inversion Hnd as [|x l Hnotin Hnd']; subst.
    destruct (TimeStamp s =? TimeStamps (j_nev j)) eqn:Heq; [|auto].
    cbn [List.length].
    assert (Hnone : filter (fun j0 => TimeStamp s =? TimeStamps (j_nev j0)) joined = []).
    { destruct (filter (fun j0 => TimeStamp s =? TimeStamps (j_nev j0)) joined)
        as [|j' l'] eqn:Hf; [reflexivity|].
      exfalso. apply Hnotin.
      assert (Hin : In j' (filter (fun j0 => TimeStamp s =? TimeStamps (j_nev j0)) joined))
        by (rewrite Hf; left; reflexivity).
      apply filter_In in Hin. destruct Hin as [Hin Ht].
      apply Z.eqb_eq in Heq, Ht. rewrite <- Heq, Ht.
      apply (in_map (fun j0 => TimeStamps (j_nev j0))). exact Hin. }
    rewrite Hnone. cbn. lia.
Qed.

Lemma flat_map_singleton {A} (l : list A) : flat_map (fun x => [x]) l = l.
Proof. induction l as [|x l IH]; [reflexivity|]. cbn. rewrite IH. reflexivity. Qed.

Lemma left_merge_one_per_sample (ns5_slice : list sample) (joined : list joined_row) :
  NoDup (joined_timestamps joined) ->
  map sample_of_merged (left_merge ns5_slice joined) = ns5_slice.
Proof.
  intros Hnd. rewrite left_merge_samples.
  rewrite <- (flat_map_singleton ns5_slice) at 2.
  apply flat_map_ext. intros s.
  pose proof (matches_at_most_one s joined Hnd) as Hle.
  replace (Nat.max 1 (List.length (matches_of s joined))) with 1%nat by lia.
  reflexivity.
Qed.

(** The float64 conversion. *)

Lemma to_float64_exact (z : Z) : float64_exact z -> to_float64 z = z.
Proof.
  unfold float64_exact. intros Hz.
  destruct (Z.eq_dec (Z.abs z) (2 ^ 53)) as [Heq|Hne].
  - destruct (Z.abs_eq_or_opp z) as [H|H]; rewrite H in Heq.
    + subst z. vm_compute. reflexivity.
    + replace z with (- 2 ^ 53) by lia. vm_compute. reflexivity.
  - unfold to_float64.
    assert (Hbits : Z.log2 (Z.abs z) + 1 <= 53).
    { destruct (Z.eq_dec (Z.abs z) 0) as [H0|H0]; [rewrite H0; cbn; lia|].
      assert (Z.log2 (Z.abs z) < 53); [|lia].
      apply Z.log2_lt_pow2; lia. }
    cbv zeta. replace (Z.log2 (Z.abs z) + 1 <=? 53) with true by lia.
    reflexivity.
Qed.

Lemma upcast_row_null (s : sample) : upcast_row (null_row s) = null_row s.
Proof. reflexivity. Qed.

Lemma upcast_row_matched_exact (s : sample) (j : joined_row) :
  metadata_exact j -> upcast_row (matched_row s j) = matched_row s j.
Proof.
  intros (H1 & H2 & H3 & H4). unfold upcast_row, matched_row. cbn.
  rewrite !to_float64_exact by assumption. reflexivity.
Qed.

Lemma null_rows_of_sample (joined : list joined_row) (s : sample) :
  existsb is_null_row (rows_of_sample joined s) = has_no_match joined s.
Proof.
  unfold rows_of_sample, has_no_match.
  destruct (matches_of s joined) as [|j ms]; [reflexivity|].
  cbn [map existsb]. cbn. induction ms as [|j' ms IH]; [reflexivity|]. exact IH.
Qed.

Lemma null_rows_iff_unmatched (ns5_slice : list sample) (joined : list joined_row) :
  existsb is_null_row (flat_map (rows_of_sample joined) ns5_slice)
  = existsb (has_no_match joined) ns5_slice.
Proof.
  induction ns5_slice as [|s rest IH]; [reflexivity|].
  cbn [flat_map existsb]. rewrite existsb_app, null_rows_of_sample, IH.
  reflexivity.
Qed.

Lemma upcast_rows_exact (ns5_slice : list sample) (joined : list joined_row) :
  Forall metadata_exact joined ->
  map upcast_row (flat_map (rows_of_sample joined) ns5_slice)
  = flat_map (rows_of_sample joined) ns5_slice.
Proof.
  intros Hexact. rewrite <- (map_id (flat_map _ _)) at 2.
  apply map_ext_in. intros m Hm.
  apply in_flat_map in Hm. destruct Hm as (s & _ & Hm).
  unfold rows_of_sample in Hm.
  destruct (matches_of s joined) as [|j ms] eqn:Hms.
  - destruct Hm as [<-|[]]. apply upcast_row_null.
  - apply in_map_iff in Hm. destruct Hm as (j' & <- & Hj').
    apply upcast_row_matched_exact.
    rewrite Forall_forall in Hexact. apply Hexact.
    assert (Hin : In j' (matches_of s joined)) by (rewrite Hms; exact Hj').
    apply filter_In in Hin. apply Hin.
Qed.

(** The bounds of the signal query. *)

Lemma fold_max_ge (xs : list Z) (a : Z) :
  a <= fold_left Z.max xs a /\ Forall (fun x => x <= fold_left Z.max xs a) xs.
Proof.
  revert a. induction xs as [|x xs IH]; intros a; simpl.
  - split; [lia | constructor].
  - destruct (IH (Z.max a x)) as [Hle Hall]. split; [lia|].
    constructor; [lia | exact Hall].
Qed.

Lemma fold_max_In (xs : list Z) (a : Z) : In (fold_left Z.max xs a) (a :: xs).
Proof.
  revert a. induction xs as [|x xs IH]; intros a; simpl; [auto|].
  destruct (IH (Z.max a x)) as [H|H]; [|auto].
  destruct (Z.max_spec a x) as [[_ Hm]|[_ Hm]]; rewrite Hm in *; auto.
Qed.

Lemma column_max_upper (col : list Z) (m : Z) :
  In m col -> Forall (fun x => x <= m) col -> column_max col = Some m.
Proof.
  destruct col as [|a xs]; [contradiction|]. intros Hin Hall.
  cbn [column_max]. f_equal.
  destruct (fold_max_ge xs a) as [Ha Hxs].
  pose proof (fold_max_In xs a) as Hmax.
  rewrite Forall_forall in Hall. apply Hall in Hmax.
  assert (m <= fold_left Z.max xs a); [|lia].
  destruct Hin as [<-|Hin]; [exact Ha|].
  rewrite Forall_forall in Hxs. apply Hxs. exact Hin.
Qed.

Lemma joined_timestamps_sorted (nev_df : list nev_row) (camera_df : list rel_row) :
  StronglySorted Z.le (map TimeStamps nev_df) ->
  StronglySorted Z.le (joined_timestamps (inner_merge nev_df camera_df)).
Proof.
  unfold joined_timestamps, inner_merge.
  induction nev_df as [|n nev_df IH]; intros Hs; [constructor|].
  cbn [map] in Hs. inversion Hs as [|a l Hs' Hall]; subst.
  cbn [flat_map]. rewrite map_app, map_map. cbn [j_nev].
  induction (filter (fun r => chunk_serial n =? chunk_serial_data (cam r)) camera_df)
    as [|r rs IHr]; cbn [map app]; [apply IH; exact Hs'|].
  constructor; [exact IHr|].
  apply Forall_app. split.
  - apply Forall_map, Forall_forall. intros; lia.
  - apply Forall_forall. intros z Hz.
    apply in_map_iff in Hz. destruct Hz as (j & <- & Hj).
    apply in_flat_map in Hj. destruct Hj as (n' & Hn' & Hj).
    apply in_map_iff in Hj. destruct Hj as (r' & <- & _). cbn [j_nev].
    rewrite Forall_forall in Hall. apply Hall.
    apply (in_map TimeStamps). exact Hn'.
Qed.

Lemma strongly_sorted_last (l : list Z) (z : Z) :
  StronglySorted Z.le (l ++ [z]) -> Forall (fun x => x <= z) (l ++ [z]).
Proof.
  induction l as [|a l IH]; cbn [app]; intros Hs.
  - repeat constructor. lia.
  - inversion Hs as [|a' l' Hs' Hall]; subst.
    constructor; [|apply IH; exact Hs'].
    rewrite Forall_forall in Hall. apply Hall, in_app_iff. right. left. reflexivity.
Qed.

Lemma iloc_last_app {A} (l : list A) (z : A) :
  iloc_last l = inr z -> exists l', l = l' ++ [z].
Proof.
  unfold iloc_last. destruct (rev l) as [|x r] eqn:Hr; [discriminate|].
  intros [= ->]. exists (rev r).
  rewrite <- (rev_involutive l), Hr. reflexivity.
Qed.

Lemma query_bounds_are_min_max (nev_df : list nev_row) (camera_df : list rel_row)
    (first last : joined_row) :
  Sorted Z.le (map TimeStamps nev_df) ->
  iloc_first (inner_merge nev_df camera_df) = inr first ->
  iloc_last (inner_merge nev_df camera_df) = inr last ->
  column_min (joined_timestamps (inner_merge nev_df camera_df))
  = Some (TimeStamps (j_nev first))
  /\ column_max (joined_timestamps (inner_merge nev_df camera_df))
     = Some (TimeStamps (j_nev last)).
Proof.
  intros Hs Hfirst Hlast.
  apply Sorted_StronglySorted in Hs; [|intros x y z; apply Z.le_trans].
  apply (joined_timestamps_sorted nev_df camera_df) in Hs.
  split.
  - destruct (inner_merge nev_df camera_df) as [|j js]; [discriminate|].
    cbn in Hfirst. injection Hfirst as <-.
    unfold joined_timestamps in *. cbn [map column_min] in *. f_equal.
    apply fold_min_lower. inversion Hs; subst. assumption.
  - apply iloc_last_app in Hlast. destruct Hlast as (l' & Hl).
    rewrite Hl in *. unfold joined_timestamps in *.
    rewrite map_app in *. cbn [map] in *.
    apply column_max_upper.
    + apply in_app_iff. right. left. reflexivity.
    + apply strongly_sorted_last. exact Hs.
Qed.

(** What a descriptor that reaches [all_merged_list] went through. *)
Lemma process_timestamp_some (inp : inputs) (s e : Z) (c : camera_serial)
    (t : timestamp) (evs : list event) (rows : list out_row) :
  process_timestamp inp s e c t = (evs, inr (Some rows)) ->
  exists g vj camera_df first last mp4_path ns5_slice,
    camera_files_get (camera_files inp) t = inr g
    /\ get_json_file g = Some vj
    /\ add_frame_ids_relative (get_camera_df vj c) = inr camera_df
    /\ iloc_first (chunk_serial_joined_of inp s e camera_df) = inr first
    /\ iloc_last (chunk_serial_joined_of inp s e camera_df) = inr last
    /\ get_filtered_channel_df inp (ns5_channel inp)
         (TimeStamps (j_nev first)) (TimeStamps (j_nev last)) = inr ns5_slice
    /\ get_mp4_file g c = Some mp4_path
    /\ evs = [Log INFO "Processing ns5 filtered channel df...";
              Ns5Query (ns5_channel inp)
                       (TimeStamps (j_nev first)) (TimeStamps (j_nev last));
              Log INFO "Merging ns5 and chunk serial df..."]
    /\ rows = map (fun r => mk_out_row r mp4_path)
                  (left_merge ns5_slice (chunk_serial_joined_of inp s e camera_df)).
Proof.
  unfold process_timestamp, lift, logger, emit, ret.
  destruct (camera_files_get (camera_files inp) t) as [ex|g] eqn:Hg; [discriminate|].
  rewrite bind_inr.
  destruct (get_json_file g) as [vj|] eqn:Hvj; [|discriminate].
  destruct (add_frame_ids_relative (get_camera_df vj c))
    as [ex|camera_df] eqn:Hdf; [discriminate|].
  rewrite bind_inr, bind_inr.
  destruct (iloc_first (chunk_serial_joined_of inp s e camera_df))
    as [ex|first] eqn:Hfirst; [discriminate|].
  rewrite bind_inr.
  destruct (iloc_last (chunk_serial_joined_of inp s e camera_df))
    as [ex|last] eqn:Hlast; [discriminate|].
  rewrite bind_inr, bind_inr.
  destruct (get_filtered_channel_df inp (ns5_channel inp)
              (TimeStamps (j_nev first)) (TimeStamps (j_nev last)))
    as [ex|ns5_slice] eqn:Hslice; [discriminate|].
  rewrite bind_inr, bind_inr.
  destruct (get_mp4_file g c) as [mp4_path|] eqn:Hmp4; [|discriminate].
  cbn. intros [= <- <-].
  exists g, vj, camera_df, first, last, mp4_path, ns5_slice.
  repeat split; assumption || reflexivity.
Qed.

Lemma sample_of_out_rows (mp4_path : path) (merged : list merged_row) :
  map sample_of (map (fun r => mk_out_row r mp4_path) merged)
  = map sample_of_merged merged.
Proof. rewrite map_map. reflexivity. Qed.

(** C4 (as amended).  For a descriptor that reaches [all_merged_list], the
    signal is queried once, from the first joined row's timestamp to the
    last joined row's timestamp, and the final rows are built from the
    samples of that query in order: a sample with no joined row at its
    timestamp gives one row with null metadata, and a sample with k of
    them gives k rows, one per matching joined row in the order of the
    joined rows, each with that row's serial and frame metadata.  So a
    sample stands max(1, k) times in a row, and exactly once when the
    joined rows have pairwise distinct timestamps.  As soon as one sample
    has no match the metadata columns are float64 columns: their integers
    are converted, which changes none of magnitude up to 2^53.  When the
    timestamps of the event rows are non-decreasing in row order, the
    bounds of the query are the minimum and the maximum timestamp of the
    joined rows. *)
Theorem C4_left_join (inp : inputs) (s e : Z) (c : camera_serial)
    (t : timestamp) (evs : list event) (rows : list out_row) :
  process_timestamp inp s e c t = (evs, inr (Some rows)) ->
  exists g vj camera_df first last mp4_path ns5_slice,
    camera_files_get (camera_files inp) t = inr g
    /\ get_json_file g = Some vj
    /\ add_frame_ids_relative (get_camera_df vj c) = inr camera_df
    /\ iloc_first (chunk_serial_joined_of inp s e camera_df) = inr first
    /\ iloc_last (chunk_serial_joined_of inp s e camera_df) = inr last
    /\ get_filtered_channel_df inp (ns5_channel inp)
         (TimeStamps (j_nev first)) (TimeStamps (j_nev last)) = inr ns5_slice
    /\ filter is_ns5_query evs
       = [Ns5Query (ns5_channel inp)
                   (TimeStamps (j_nev first)) (TimeStamps (j_nev last))]
    /\ rows
       = map (fun m => mk_out_row m mp4_path)
           ((if existsb (has_no_match (chunk_serial_joined_of inp s e camera_df))
                        ns5_slice
             then map upcast_row else fun l => l)
              (flat_map
                 (fun x =>
                    match matches_of x (chunk_serial_joined_of inp s e camera_df) with
                    | [] => [null_row x]
                    | ms => map (matched_row x) ms
                    end)
                 ns5_slice))
    /\ (Forall metadata_exact (chunk_serial_joined_of inp s e camera_df) ->
        rows
        = map (fun m => mk_out_row m mp4_path)
            (flat_map
               (fun x =>
                  match matches_of x (chunk_serial_joined_of inp s e camera_df) with
                  | [] => [null_row x]
                  | ms => map (matched_row x) ms
                  end)
               ns5_slice))
    /\ map sample_of rows
       = flat_map
           (fun x =>
              repeat x
                (Nat.max 1
                   (List.length
                      (matches_of x (chunk_serial_joined_of inp s e camera_df)))))
           ns5_slice
    /\ (NoDup (joined_timestamps (chunk_serial_joined_of inp s e camera_df)) ->
        map sample_of rows = ns5_slice)
    /\ (Sorted Z.le (map TimeStamps (nev_chunk_serial_df inp)) ->
        column_min (joined_timestamps (chunk_serial_joined_of inp s e camera_df))
        = Some (TimeStamps (j_nev first))
        /\ column_max (joined_timestamps (chunk_serial_joined_of inp s e camera_df))
           = Some (TimeStamps (j_nev last))).
Proof.
  intros H. apply process_timestamp_some in H.
  destruct H as (g & vj & camera_df & first & last & mp4_path & ns5_slice
                 & Hg & Hvj & Hdf & Hfirst & Hlast & Hslice & Hmp4 & -> & ->).
  exists g, vj, camera_df, first, last, mp4_path, ns5_slice.
  repeat (split; [assumption|]).
  split; [reflexivity|].
  set (joined := chunk_serial_joined_of inp s e camera_df).
  assert (Hrows : left_merge ns5_slice joined
                  = (if existsb (has_no_match joined) ns5_slice
                     then map upcast_row else fun l => l)
                      (flat_map (rows_of_sample joined) ns5_slice)).
  { unfold left_merge, upcast_if_null. rewrite null_rows_iff_unmatched.
    destruct (existsb (has_no_match joined) ns5_slice); reflexivity. }
  split; [rewrite Hrows; reflexivity|].
  split.
  - intros Hexact. rewrite Hrows.
    destruct (existsb (has_no_match joined) ns5_slice); [|reflexivity].
    rewrite (upcast_rows_exact ns5_slice joined Hexact). reflexivity.
  - split; [rewrite sample_of_out_rows; apply left_merge_samples|].
    split.
    + intros Hnd. rewrite sample_of_out_rows.
      apply left_merge_one_per_sample. exact Hnd.
    + intros Hsorted. apply query_bounds_are_min_max; assumption.
Qed.

Lemma C4_left_join_witness :
  exists g vj camera_df first last mp4_path ns5_slice,
    camera_files_get (camera_files run_sparse_events) "20240101_100000" = inr g
    /\ get_json_file g = Some vj
    /\ add_frame_ids_relative (get_camera_df vj "cam1") = inr camera_df
    /\ iloc_first (chunk_serial_joined_of run_sparse_events 100 101 camera_df) = inr first
    /\ iloc_last (chunk_serial_joined_of run_sparse_events 100 101 camera_df) = inr last
    /\ get_filtered_channel_df run_sparse_events (ns5_channel run_sparse_events)
         (TimeStamps (j_nev first)) (TimeStamps (j_nev last)) = inr ns5_slice
    /\ filter is_ns5_query (events_of_join 1000 1002)
       = [Ns5Query (ns5_channel run_sparse_events)
                   (TimeStamps (j_nev first)) (TimeStamps (j_nev last))]
    /\ rows_sparse
       = map (fun m => mk_out_row m mp4_path)
           ((if existsb (has_no_match (chunk_serial_joined_of run_sparse_events 100 101 camera_df))
                        ns5_slice
             then map upcast_row else fun l => l)
              (flat_map
                 (fun x =>
                    match matches_of x (chunk_serial_joined_of run_sparse_events 100 101 camera_df) with
                    | [] => [null_row x]
                    | ms => map (matched_row x) ms
                    end)
                 ns5_slice))
    /\ (Forall metadata_exact (chunk_serial_joined_of run_sparse_events 100 101 camera_df) ->
        rows_sparse
        = map (fun m => mk_out_row m mp4_path)
            (flat_map
               (fun x =>
                  match matches_of x (chunk_serial_joined_of run_sparse_events 100 101 camera_df) with
                  | [] => [null_row x]
                  | ms => map (matched_row x) ms
                  end)
               ns5_slice))
    /\ map sample_of rows_sparse
       = flat_map
           (fun x =>
              repeat x
                (Nat.max 1
                   (List.length
                      (matches_of x (chunk_serial_joined_of run_sparse_events 100 101 camera_df)))))
           ns5_slice
    /\ (NoDup (joined_timestamps (chunk_serial_joined_of run_sparse_events 100 101 camera_df)) ->
        map sample_of rows_sparse = ns5_slice)
    /\ (Sorted Z.le (map TimeStamps (nev_chunk_serial_df run_sparse_events)) ->
        column_min (joined_timestamps (chunk_serial_joined_of run_sparse_events 100 101 camera_df))
        = Some (TimeStamps (j_nev first))
        /\ column_max (joined_timestamps (chunk_serial_joined_of run_sparse_events 100 101 camera_df))
           = Some (TimeStamps (j_nev last))).
Proof.
  apply (C4_left_join run_sparse_events 100 101 "cam1" "20240101_100000"
           (events_of_join 1000 1002) rows_sparse).
  vm_compute. reflexivity.
Defined.

(** In the concatenation a table with a null makes the metadata of the
    other tables float64 as well. *)
Example concat_converts_other_tables :
  pd_concat
    [[mk_out_row (mk_merged_row 1 0 (Some (2 ^ 53 + 1)) (Some 1) (Some 1) (Some 1))
                 "a.mp4"];
     [mk_out_row (null_row (mk_sample 2 0)) "b.mp4"]]
  = [mk_out_row (mk_merged_row 1 0 (Some (2 ^ 53)) (Some 1) (Some 1) (Some 1))
                "a.mp4";
     mk_out_row (null_row (mk_sample 2 0)) "b.mp4"].
Proof. vm_compute. reflexivity. Qed.

(** C4, counterexample.  Two frames carry chunk serial 100, whose event has
    timestamp 1000: the joined rows hold that timestamp twice, and the one
    sample the signal query returns appears twice in the final rows. *)
Lemma C4_counterexample :
  process_timestamp run_repeated_serial 100 100 "cam1" "20240101_100000"
  = (events_of_join 1000 1000, inr (Some rows_repeated))
  /\ get_filtered_channel_df run_repeated_serial 1 1000 1000
     = inr [mk_sample 1000 7000]
  /\ occurrences (mk_sample 1000 7000) rows_repeated = 2%nat
  /\ ~ Forall (fun x => occurrences x rows_repeated = 1%nat) [mk_sample 1000 7000].
Proof.
  repeat split; try (vm_compute; reflexivity).
  intros H. vm_compute in H. inversion H as [|x l Hx Hl]. discriminate Hx.
Qed.

(** The joining scenario of the specification: two rows, both with frame
    metadata, relative frame indices 1 and 2. *)
Example join_scenario :
  process_timestamp run_two_cameras 100 101 "cam1" "20240101_100000"
  = (events_of_join 1000 1001, inr (Some rows_scenario)).
Proof. vm_compute. reflexivity. Qed.

(** Two frames of one serial and a sample between two events: the sample
    at 1000 stands twice, with frames 1 and 2, the sample at 1001 once,
    with null metadata. *)
Example join_sparse_events :
  process_timestamp run_sparse_events 100 101 "cam1" "20240101_100000"
  = (events_of_join 1000 1002, inr (Some rows_sparse)).
Proof. vm_compute. reflexivity. Qed.

(** Beyond 2^53 the conversion rounds: 2^53 + 1 becomes 2^53. *)
Example float64_rounds :
  upcast_if_null
    [mk_merged_row 1 0 (Some (2 ^ 53 + 1)) (Some 1) (Some 1) (Some 1);
     null_row (mk_sample 2 0)]
  = [mk_merged_row 1 0 (Some (2 ^ 53)) (Some 1) (Some 1) (Some 1);
     null_row (mk_sample 2 0)].
Proof. vm_compute. reflexivity. Qed.

(** ** The distinct files, in order of first appearance *)

Lemma seen_in_In (x : path) (seen : list path) :
  seen_in x seen = true <-> In x seen.
Proof.
  unfold seen_in. rewrite existsb_exists. split.
  - intros (y & Hin & Heq). apply String.eqb_eq in Heq. subst. exact Hin.
  - intros Hin. exists x. split; [exact Hin | apply String.eqb_refl].
Qed.

Lemma seen_in_app (x : path) (a b : list path) :
  seen_in x (a ++ b) = seen_in x a || seen_in x b.
Proof. apply existsb_app. Qed.

Lemma unique_from_In (seen l : list path) (x : path) :
  In x (unique_from seen l) <-> In x l /\ ~ In x seen.
Proof.
  revert seen. induction l as [|y l IH]; intros seen; cbn [unique_from].
  - simpl. tauto.
  - destruct (seen_in y seen) eqn:Hy.
    + apply seen_in_In in Hy. rewrite IH. simpl.
      split; [tauto|]. intros [[->|Hin] Hn]; [contradiction | tauto].
    + assert (Hny : ~ In y seen).
      { intros Hin. apply seen_in_In in Hin. congruence. }
      simpl. rewrite IH. simpl.
      destruct (string_dec y x) as [->|Hne]; [tauto|].
      split.
      * intros [Heq|[Hin Hn]]; [contradiction|]. tauto.
      * intros [[Heq|Hin] Hn]; [contradiction|]. right. tauto.
Qed.

Lemma unique_from_NoDup (seen l : list path) : NoDup (unique_from seen l).
Proof.
  revert seen. induction l as [|y l IH]; intros seen; cbn [unique_from].
  - constructor.
  - destruct (seen_in y seen); [apply IH|].
    constructor; [|apply IH].
    rewrite unique_from_In. simpl. tauto.
Qed.

Lemma unique_from_ext (s1 s2 l : list path) :
  (forall y, In y s1 <-> In y s2) -> unique_from s1 l = unique_from s2 l.
Proof.
  revert s1 s2. induction l as [|x l IH]; intros s1 s2 Hs; [reflexivity|].
  cbn [unique_from].
  assert (Hx : seen_in x s1 = seen_in x s2).
  { apply eq_true_iff_eq. rewrite !seen_in_In. apply Hs. }
  rewrite Hx. destruct (seen_in x s2).
  - apply IH, Hs.
  - f_equal. apply IH. intros y. simpl. rewrite Hs. tauto.
Qed.

Lemma unique_from_app (seen l1 l2 : list path) :
  unique_from seen (l1 ++ l2)
  = unique_from seen l1 ++ unique_from (rev l1 ++ seen) l2.
Proof.
  revert seen. induction l1 as [|x l1 IH]; intros seen; [reflexivity|].
  cbn [app unique_from rev].
  destruct (seen_in x seen) eqn:Hx.
  - rewrite IH. f_equal. apply unique_from_ext.
    apply seen_in_In in Hx.
    intros y. rewrite !in_app_iff. simpl. split; [tauto|].
    intros [[Hin|[->|[]]]|Hin]; tauto.
  - rewrite IH. cbn [app]. f_equal. f_equal. apply unique_from_ext.
    intros y. rewrite !in_app_iff. simpl. tauto.
Qed.

Lemma unique_from_filter (extra seen l : list path) :
  unique_from (extra ++ seen) l
  = filter (fun y => negb (seen_in y extra)) (unique_from seen l).
Proof.
  revert seen. induction l as [|x l IH]; intros seen; [reflexivity|].
  cbn [unique_from].
  destruct (seen_in x seen) eqn:Hs.
  - assert (Hx : seen_in x (extra ++ seen) = true).
    { apply seen_in_In, in_app_iff. right. apply seen_in_In. exact Hs. }
    rewrite Hx. apply IH.
  - change (filter ?f (x :: ?l)) with (if f x then x :: filter f l else filter f l).
    cbv beta. destruct (seen_in x extra) eqn:He; cbn [negb].
    + assert (Hx : seen_in x (extra ++ seen) = true).
      { apply seen_in_In, in_app_iff. left. apply seen_in_In. exact He. }
      rewrite Hx, <- IH. apply unique_from_ext.
      apply seen_in_In in He.
      intros y. rewrite !in_app_iff. simpl. split; [tauto|].
      intros [Hin|[->|Hin]]; tauto.
    + assert (Hx : seen_in x (extra ++ seen) = false).
      { rewrite seen_in_app, He, Hs. reflexivity. }
      rewrite Hx, <- IH. f_equal. apply unique_from_ext.
      intros y. rewrite !in_app_iff. simpl. rewrite in_app_iff. tauto.
Qed.

(** The distinct values of a prefix come first, in the order [unique]
    gives them for the prefix alone; then those the prefix does not have. *)
Lemma unique_app (l1 l2 : list path) :
  unique (l1 ++ l2)
  = unique l1 ++ filter (fun y => negb (seen_in y l1)) (unique l2).
Proof.
  unfold unique. rewrite unique_from_app, unique_from_filter. f_equal.
  apply filter_ext. intros y. f_equal.
  apply eq_true_iff_eq. rewrite !seen_in_In, <- in_rev. tauto.
Qed.

(** ** The segment assembly *)

Lemma make_subclips_ok (inp : inputs) (df : list out_row) (out_dir : path)
    (subclip_of : path -> path) (files : list path) :
  (forall f, In f files ->
             make_synced_subclip_ffmpeg inp (rows_of_file df f) f out_dir
             = inr (subclip_of f)) ->
  make_subclips inp df out_dir files
  = (map (fun f => Subclip (rows_of_file df f) f out_dir) files,
     inr (map subclip_of files)).
Proof.
  induction files as [|f files IH]; intros Hok; [reflexivity|].
  cbn [make_subclips map]. unfold emit, lift.
  rewrite bind_inr, (Hok f (or_introl eq_refl)), bind_inr.
  rewrite IH by (intros f' Hin; apply Hok; right; exact Hin).
  rewrite bind_inr. cbn. rewrite app_nil_r. reflexivity.
Qed.

Lemma filter_media_subclips (df : list out_row) (out_dir : path) (files : list path) :
  filter is_media (map (fun f => Subclip (rows_of_file df f) f out_dir) files)
  = map (fun f => Subclip (rows_of_file df f) f out_dir) files.
Proof.
  induction files as [|f files IH]; [reflexivity|]. cbn. rewrite IH. reflexivity.
Qed.

(** C7.  For a camera with a non-empty concatenated row sequence, when the
    sub-clip calls complete: the files are the distinct [mp4_file] values,
    each once, the distinct files of any prefix of the rows coming first;
    one sub-clip is requested per file in that order; with a single file
    the sub-clip is the final output and no concatenation is requested;
    otherwise one concatenation of the sub-clips, in the same order, gives
    the final output. *)
Theorem C7_subclips_in_first_appearance_order (inp : inputs) (c : camera_serial)
    (df : list out_row) (subclip_of : path -> path) :
  df <> [] ->
  (forall f, In f (unique (map mp4_file df)) ->
             make_synced_subclip_ffmpeg inp (rows_of_file df f) f
               (path_join (output_dir inp) c)
             = inr (subclip_of f)) ->
  NoDup (unique (map mp4_file df))
  /\ (forall f, In f (unique (map mp4_file df)) <-> In f (map mp4_file df))
  /\ (forall l1 l2,
        map mp4_file df = l1 ++ l2 ->
        unique (map mp4_file df)
        = unique l1 ++ filter (fun y => negb (seen_in y l1)) (unique l2))
  /\ unique (map mp4_file df) <> []
  /\ media_requests (assemble inp c df)
     = map (fun f => Subclip (rows_of_file df f) f (path_join (output_dir inp) c))
           (unique (map mp4_file df))
       ++ match unique (map mp4_file df) with
          | [_] => []
          | files => [Concat (map subclip_of files) (stitched_path inp c)]
          end
  /\ outcome (assemble inp c df)
     = match unique (map mp4_file df) with
       | [f] => inr (subclip_of f)
       | files =>
           match ffmpeg_concat_mp4s inp (map subclip_of files)
                                    (stitched_path inp c) with
           | inl ex => inl ex
           | inr _ => inr (stitched_path inp c)
           end
       end.
Proof.
  intros Hne Hok.
  split; [apply unique_from_NoDup|].
  split; [intros f; unfold unique; rewrite unique_from_In; simpl; tauto|].
  split; [intros l1 l2 ->; apply unique_app|].
  assert (Hfiles : unique (map mp4_file df) <> []).
  { destruct df as [|r df]; [contradiction|]. discriminate. }
  split; [exact Hfiles|].
  unfold media_requests, outcome, events, assemble, logger, emit.
  rewrite !bind_inr, (make_subclips_ok _ _ _ subclip_of _ Hok), bind_inr.
  cbn [fst snd].
  destruct (unique (map mp4_file df)) as [|f [|f' files]]; [contradiction| |].
  - cbn [map finish]. unfold ret. rewrite !bind_inr. cbn. split; reflexivity.
  - set (fs := f :: f' :: files).
    assert (Hfin : finish inp c (map subclip_of fs)
                   = ([Concat (map subclip_of fs) (stitched_path inp c)],
                      match ffmpeg_concat_mp4s inp (map subclip_of fs)
                                               (stitched_path inp c) with
                      | inl ex => inl ex
                      | inr _ => inr (stitched_path inp c)
                      end)).
    { unfold fs. cbn [map finish]. unfold emit, lift, ret.
      rewrite bind_inr.
      destruct (ffmpeg_concat_mp4s inp _ _) as [ex|[]]; reflexivity. }
    rewrite Hfin.
    destruct (ffmpeg_concat_mp4s inp (map subclip_of fs) (stitched_path inp c))
      as [ex|[]].
    + cbn [bind fst snd]. split; [|reflexivity].
      cbn [app filter is_media]. rewrite filter_app, filter_media_subclips.
      reflexivity.
    + rewrite !bind_inr. cbn [fst snd ret app]. split; [|reflexivity].
      cbn [app filter is_media]. rewrite !filter_app, filter_media_subclips.
      reflexivity.
Qed.

Lemma C7_subclips_in_first_appearance_order_witness :
  NoDup (unique (map mp4_file rows_two_files))
  /\ (forall f, In f (unique (map mp4_file rows_two_files))
                <-> In f (map mp4_file rows_two_files))
  /\ (forall l1 l2,
        map mp4_file rows_two_files = l1 ++ l2 ->
        unique (map mp4_file rows_two_files)
        = unique l1 ++ filter (fun y => negb (seen_in y l1)) (unique l2))
  /\ unique (map mp4_file rows_two_files) <> []
  /\ media_requests (assemble run_two_files "cam1" rows_two_files)
     = map (fun f => Subclip (rows_of_file rows_two_files f) f
                             (path_join (output_dir run_two_files) "cam1"))
           (unique (map mp4_file rows_two_files))
       ++ match unique (map mp4_file rows_two_files) with
          | [_] => []
          | files =>
              [Concat (map (fun f => path_join "out/cam1" ("sub_" +++ f)) files)
                      (stitched_path run_two_files "cam1")]
          end
  /\ outcome (assemble run_two_files "cam1" rows_two_files)
     = match unique (map mp4_file rows_two_files) with
       | [f] => inr (path_join "out/cam1" ("sub_" +++ f))
       | files =>
           match ffmpeg_concat_mp4s run_two_files
                   (map (fun f => path_join "out/cam1" ("sub_" +++ f)) files)
                   (stitched_path run_two_files "cam1") with
           | inl ex => inl ex
           | inr _ => inr (stitched_path run_two_files "cam1")
           end
       end.
Proof.
  apply (C7_subclips_in_first_appearance_order run_two_files "cam1" rows_two_files
           (fun f => path_join "out/cam1" ("sub_" +++ f))).
  - discriminate.
  - intros f _. reflexivity.
Defined.

(** The run with two descriptors: two sub-clips, then one concatenation. *)
Example two_files_stitched :
  outcome (merge_timestamps run_two_files 100 101 "cam1"
             ["20240101_100000"; "20240101_110000"])
  = inr [[nth 0 rows_two_files (mk_out_row (null_row (mk_sample 0 0)) "")];
         [nth 1 rows_two_files (mk_out_row (null_row (mk_sample 0 0)) "")]]
  /\ media_requests (main run_two_files)
     = [Subclip [nth 0 rows_two_files (mk_out_row (null_row (mk_sample 0 0)) "")]
                "a_cam1.mp4" "out/cam1";
        Subclip [nth 1 rows_two_files (mk_out_row (null_row (mk_sample 0 0)) "")]
                "b_cam1.mp4" "out/cam1";
        Concat ["out/cam1/sub_a_cam1.mp4"; "out/cam1/sub_b_cam1.mp4"]
               "out/cam1/stitched_cam1.mp4"]
  /\ outcome (main run_two_files) = inr [("cam1", Some "out/cam1/stitched_cam1.mp4")].
Proof. repeat split; vm_compute; reflexivity. Qed.

(** ** Failures of the media calls *)








(** ** The order of processing *)








Lemma insert_timestamp_permutation (x : timestamp) (l : list timestamp) :
  Permutation (insert_timestamp x l) (x :: l).
Proof.
  induction l as [|a l IH]; cbn [insert_timestamp]; [reflexivity|].
  destruct (String.leb x a); [reflexivity|].
  rewrite IH. apply perm_swap.
Qed.

Lemma sort_timestamps_permutation (l : list timestamp) :
  Permutation (sort_timestamps l) l.
Proof.
  unfold sort_timestamps.
  induction l as [|x l IH]; cbn [fold_right]; [reflexivity|].
  rewrite insert_timestamp_permutation, IH. reflexivity.
Qed.









(** The run with two descriptors, its selection stored in descending
    order: the earlier descriptor is joined first and its sub-clip comes
    first in the concatenation. *)
Example descending_selection_processed_ascending :
  events (merge_timestamps run_two_files 100 101 "cam1"
            (sort_timestamps ["20240101_110000"; "20240101_100000"]))
  = events_of_join 1000 1000 ++ events_of_join 1001 1001
  /\ media_requests
       (process_selected run_two_files 100 101
          ["20240101_110000"; "20240101_100000"])
     = [Subclip [nth 0 rows_two_files (mk_out_row (null_row (mk_sample 0 0)) "")]
                "a_cam1.mp4" "out/cam1";
        Subclip [nth 1 rows_two_files (mk_out_row (null_row (mk_sample 0 0)) "")]
                "b_cam1.mp4" "out/cam1";
        Concat ["out/cam1/sub_a_cam1.mp4"; "out/cam1/sub_b_cam1.mp4"]
               "out/cam1/stitched_cam1.mp4"].
Proof. split; vm_compute; reflexivity. Qed.

(** A cached list stored in descending order is processed ascending. *)
Example cached_order_is_not_processing_order :
  sort_timestamps ["20240101_110000"; "20240101_100000"]
  = ["20240101_100000"; "20240101_110000"].
Proof. reflexivity. Qed.

(** * Further properties of [main] *)

(** ** What the overlap scan selects *)

Lemma prefix_before_incl {A} (p : A -> bool) (l : list A) (x : A) :
  In x (prefix_before p l) -> In x l /\ p x = false.
Proof.
  induction l as [|y l IH]; cbn [prefix_before]; [contradiction|].
  destruct (p y) eqn:Hp; [contradiction|].
  intros [<-|Hin]; [split; [left; reflexivity | exact Hp]|].
  destruct (IH Hin) as [H1 H2]. split; [right; exact H1 | exact H2].
Qed.

Lemma overlap_scan_selected_In (s e : Z)
    (files : list (timestamp * camera_file_group)) (t : timestamp) :
  In t (snd (overlap_scan s e files)) ->
  exists g,
    In (t, g) files
    /\ resolved (t, g) = true
    /\ max_serial_below s (t, g) = false
    /\ stops_scan s e (t, g) = false.
Proof.
  rewrite overlap_scan_selected. intros Hin.
  apply in_map_iff in Hin. destruct Hin as ([t' g] & Ht & Hin). cbn in Ht. subst t'.
  apply filter_In in Hin. destruct Hin as [Hpre Hsel].
  apply prefix_before_incl in Hpre. destruct Hpre as [Hfiles Hstop].
  apply andb_prop in Hsel. destruct Hsel as [Hres Hbelow].
  apply negb_true_iff in Hbelow.
  exists g. repeat split; assumption.
Qed.

Lemma kept_descriptor_overlaps (s e : Z) (d : timestamp * camera_file_group) :
  resolved d = true ->
  max_serial_below s d = false ->
  stops_scan s e d = false ->
  overlaps s e d = true.
Proof.
  unfold stops_scan, resolved, max_serial_below, min_serial_exceeds, overlaps.
  destruct (serial_range d) as [[lo hi]|]; [|discriminate].
  intros _ Hhi. rewrite Hhi. cbn [negb andb]. intros Hlo.
  apply andb_true_intro. split; lia.
Qed.

(** X1.  Every selected timestamp is the key of a descriptor of the camera
    directory whose metadata resolves and whose serial range meets the
    reference range. *)
Theorem scan_selects_overlapping (s e : Z)
    (files : list (timestamp * camera_file_group)) (t : timestamp) :
  In t (snd (overlap_scan s e files)) ->
  exists g, In (t, g) files /\ overlaps s e (t, g) = true.
Proof.
  intros Hin.
  destruct (overlap_scan_selected_In s e files t Hin)
    as (g & Hfiles & Hres & Hbelow & Hstop).
  exists g. split; [exact Hfiles|].
  apply kept_descriptor_overlaps; assumption.
Qed.

Lemma scan_selects_overlapping_witness :
  exists g, In ("B", g) scenario_ABC /\ overlaps 100 200 ("B", g) = true.
Proof.
  apply (scan_selects_overlapping 100 200 scenario_ABC "B").
  vm_compute. right. left. reflexivity.
Defined.

(** X2.  The early exit can only lose descriptors at the end: the selection is
    a prefix of the overlapping descriptors, in the order of the camera
    directory. *)
Theorem scan_is_prefix_of_overlapping (s e : Z)
    (files : list (timestamp * camera_file_group)) :
  exists lost,
    map fst (filter (overlaps s e) files) = snd (overlap_scan s e files) ++ lost.
Proof.
  induction files as [|d rest [lost IH]]; [exists []; reflexivity|].
  rewrite overlap_scan_cons. cbv zeta. cbn [filter]. unfold overlaps at 1.
  destruct (serial_range d) as [[lo hi]|].
  - destruct (hi <? s) eqn:Hhi.
    + replace (s <=? hi) with false by lia. cbn [andb snd]. exists lost. exact IH.
    + replace (s <=? hi) with true by lia. cbn [andb].
      destruct (lo <=? e).
      * cbn [map snd app]. exists lost. rewrite IH. reflexivity.
      * cbn [snd app]. eexists. reflexivity.
  - destruct (get_json_file (snd d)); cbn [snd]; exists lost; exact IH.
Qed.

Lemma no_overlap_after_stop (s e : Z) (d : timestamp * camera_file_group)
    (rest : list (timestamp * camera_file_group)) (lo hi : Z) :
  serial_range d = Some (lo, hi) -> e < lo ->
  Forall (starts_no_later d) rest ->
  filter (overlaps s e) rest = [].
Proof.
  intros Hd Hlo Hall.
  induction rest as [|d' rest IH]; [reflexivity|].
  inversion Hall as [|x l Hd' Hall']; subst.
  cbn [filter]. unfold overlaps at 1.
  destruct (serial_range d') as [[lo' hi']|] eqn:Hr; [|apply IH; exact Hall'].
  pose proof (Hd' lo hi lo' hi' Hd Hr) as Hle.
  replace (lo' <=? e) with false by lia.
  rewrite andb_false_r. apply IH. exact Hall'.
Qed.

(** X3.  Under the chronological premise (no later descriptor starts at a
    smaller serial) the early exit loses nothing: the scan selects exactly
    the descriptors that overlap the reference range. *)
Theorem scan_complete_when_chronological (s e : Z)
    (files : list (timestamp * camera_file_group)) :
  StronglySorted starts_no_later files ->
  snd (overlap_scan s e files) = map fst (filter (overlaps s e) files).
Proof.
  induction files as [|d rest IH]; intros Hs; [reflexivity|].
  inversion Hs as [|x l Hs' Hall]; subst.
  rewrite overlap_scan_cons. cbv zeta. cbn [filter]. unfold overlaps at 1.
  destruct (serial_range d) as [[lo hi]|] eqn:Hr.
  - destruct (hi <? s) eqn:Hhi.
    + replace (s <=? hi) with false by lia. cbn [andb snd]. apply IH, Hs'.
    + replace (s <=? hi) with true by lia. cbn [andb].
      destruct (lo <=? e) eqn:Hlo.
      * cbn [map snd]. rewrite (IH Hs'). reflexivity.
      * cbn [snd].
        rewrite (no_overlap_after_stop s e d rest lo hi Hr ltac:(lia) Hall).
        reflexivity.
  - destruct (get_json_file (snd d)); cbn [snd]; apply IH, Hs'.
Qed.

Lemma scan_complete_when_chronological_witness :
  snd (overlap_scan 100 200 scenario_ABC)
  = map fst (filter (overlaps 100 200) scenario_ABC).
Proof.
  apply (scan_complete_when_chronological 100 200 scenario_ABC).
  unfold scenario_ABC.
  repeat first [apply SSorted_nil | apply SSorted_cons
               | apply Forall_nil | apply Forall_cons];
    unfold starts_no_later; cbn; intros lo hi lo' hi' [= <- <-] [= <- <-]; lia.
Defined.

(** ** The persisted selection, across runs *)

(** X4.  A run without persisted timestamps saves its selection; a second run
    on the same camera directory that loads what was saved selects the
    same timestamps, for the same serial range. *)
Theorem cache_round_trip (inp inp' : inputs) (s e : Z) :
  load_timestamps inp = None ->
  camera_files inp' = camera_files inp ->
  load_timestamps inp' = Some (snd (overlap_scan s e (camera_files inp))) ->
  In (SaveTimestamps (snd (overlap_scan s e (camera_files inp))))
     (events (select_timestamps inp s e))
  /\ outcome (select_timestamps inp s e)
     = inr (snd (overlap_scan s e (camera_files inp)))
  /\ outcome (select_timestamps inp' s e) = outcome (select_timestamps inp s e).
Proof.
  intros Hnone Hfiles Hload.
  unfold select_timestamps, outcome, events, logger, emit, ret.
  rewrite Hnone, Hload, Hfiles.
  destruct (overlap_scan s e (camera_files inp)) as [evs sel]. cbn [fst snd].
  rewrite !bind_inr. cbn [fst snd].
  split; [apply in_app_iff; right; apply in_app_iff; right; right; left; reflexivity|].
  split; [reflexivity|].
  destruct sel as [|t ts]; rewrite ?bind_inr; reflexivity.
Qed.

Lemma cache_round_trip_witness :
  In (SaveTimestamps (snd (overlap_scan 100 101 (camera_files run_two_cameras))))
     (events (select_timestamps run_two_cameras 100 101))
  /\ outcome (select_timestamps run_two_cameras 100 101)
     = inr (snd (overlap_scan 100 101 (camera_files run_two_cameras)))
  /\ outcome (select_timestamps run_second 100 101)
     = outcome (select_timestamps run_two_cameras 100 101).
Proof.
  apply (cache_round_trip run_two_cameras run_second 100 101); reflexivity.
Defined.

(** ** What a run writes *)

Lemma Forall_bind {A B} (P : event -> Prop) (c : M A) (k : A -> M B) :
  Forall P (events c) ->
  (forall a, Forall P (events (k a))) ->
  Forall P (events (bind c k)).
Proof.
  unfold events. destruct c as [evs [ex|a]]; cbn [fst]; intros Hc Hk; [exact Hc|].
  rewrite bind_inr. cbn [fst]. apply Forall_app. split; [exact Hc | apply Hk].
Qed.

Lemma Forall_lift {A} (P : event -> Prop) (r : exn + A) : Forall P (events (lift r)).
Proof. constructor. Qed.

Lemma Forall_ret {A} (P : event -> Prop) (a : A) : Forall P (events (ret a)).
Proof. constructor. Qed.

Lemma Forall_emit (P : event -> Prop) (ev : event) : P ev -> Forall P (events (emit ev)).
Proof. intros H. constructor; [exact H | constructor]. Qed.

Ltac walk :=
  repeat first
    [ assumption
    | progress cbv zeta
    | apply Forall_lift
    | apply Forall_ret
    | apply Forall_emit; reflexivity
    | apply Forall_bind; [|intros ?]
    | match goal with
      | |- Forall _ (events (match ?x with _ => _ end)) => destruct x
      end ].

Lemma process_timestamp_never_saves (inp : inputs) (s e : Z) (c : camera_serial)
    (t : timestamp) :
  Forall (fun ev => is_save ev = false) (events (process_timestamp inp s e c t)).
Proof. unfold process_timestamp, logger. walk. Qed.

Lemma merge_timestamps_never_saves (inp : inputs) (s e : Z) (c : camera_serial)
    (sorted_timestamps : list timestamp) :
  Forall (fun ev => is_save ev = false)
         (events (merge_timestamps inp s e c sorted_timestamps)).
Proof.
  induction sorted_timestamps as [|t rest IH]; cbn [merge_timestamps]; walk.
Qed.

Lemma make_subclips_never_saves (inp : inputs) (df : list out_row) (out_dir : path)
    (files : list path) :
  Forall (fun ev => is_save ev = false) (events (make_subclips inp df out_dir files)).
Proof.
  induction files as [|f files IH]; cbn [make_subclips]; walk.
Qed.

Lemma process_camera_never_saves (inp : inputs) (s e : Z)
    (sorted_timestamps : list timestamp) (c : camera_serial) :
  Forall (fun ev => is_save ev = false)
         (events (process_camera inp s e sorted_timestamps c)).
Proof.
  unfold process_camera. apply Forall_bind; [apply merge_timestamps_never_saves|].
  intros all_merged_list. unfold assemble, finish.
  destruct all_merged_list; walk; apply make_subclips_never_saves.
Qed.

Lemma run_cameras_never_saves (inp : inputs) (s e : Z)
    (sorted_timestamps : list timestamp) (cameras : list camera_serial) :
  Forall (fun ev => is_save ev = false)
         (events (run_cameras inp s e sorted_timestamps cameras)).
Proof.
  induction cameras as [|c cameras IH]; cbn [run_cameras]; [walk|].
  apply Forall_bind; [apply process_camera_never_saves|]. intros out. walk.
Qed.

Lemma filter_none {A} (p : A -> bool) (l : list A) :
  Forall (fun x => p x = false) l -> filter p l = [].
Proof.
  induction 1 as [|x l Hx _ IH]; [reflexivity|]. cbn. rewrite Hx. exact IH.
Qed.

Lemma overlap_scan_never_saves (s e : Z) (files : list (timestamp * camera_file_group)) :
  filter is_save (fst (overlap_scan s e files)) = [].
Proof.
  induction files as [|d rest IH]; [reflexivity|].
  rewrite overlap_scan_cons. cbv zeta.
  destruct (serial_range d) as [[lo hi]|].
  - destruct (hi <? s); [exact IH|]. destruct (lo <=? e); [exact IH | reflexivity].
  - destruct (get_json_file (snd d)); exact IH.
Qed.

(** X5.  The selection is written at most once in a run, and only by a run
    that scanned: a run that ends at the configuration or integrity check,
    or whose event log is empty, or that loaded a non-empty list, never
    writes; any other run writes exactly the scanned selection, whether or
    not the processing that follows completes. *)
Theorem selection_saved_once (inp : inputs) :
  filter is_save (events (main inp))
  = if is_config_valid inp && verify_integrity inp then
      match get_column_min_max (nev_chunk_serial_df inp) with
      | inl _ => []
      | inr (s, e) =>
          match load_timestamps inp with
          | Some (_ :: _) => []
          | _ => [SaveTimestamps (snd (overlap_scan s e (camera_files inp)))]
          end
      end
    else [].
Proof.
  unfold main, events, logger, emit, lift, ret.
  destruct (is_config_valid inp); cbn [negb andb]; [|reflexivity].
  destruct (verify_integrity inp); cbn [negb andb]; [|reflexivity].
  rewrite bind_inr.
  destruct (get_column_min_max (nev_chunk_serial_df inp)) as [ex|[s e]];
    [reflexivity|].
  rewrite !bind_inr. cbn [fst snd app filter is_save].
  pose proof (run_cameras_never_saves inp s e) as Hrun.
  unfold process_selected, select_timestamps, logger, emit, ret.
  destruct (load_timestamps inp) as [[|t ts]|];
    repeat (rewrite bind_inr; cbn [fst snd app]);
    cbn [filter is_save]; rewrite ?filter_app, ?overlap_scan_never_saves;
    cbn [filter is_save app]; f_equal; apply filter_none, Hrun.
Qed.

(** ** Looking the selected groups up *)

Lemma camera_files_get_In (files : list (timestamp * camera_file_group))
    (t : timestamp) (g : camera_file_group) :
  NoDup (map fst files) -> In (t, g) files -> camera_files_get files t = inr g.
Proof.
  induction files as [|[k g'] files IH]; intros Hnd Hin; [contradiction|].
  cbn [map fst] in Hnd. inversion Hnd as [|x l Hnotin Hnd']; subst.
  cbn [camera_files_get].
  destruct Hin as [[= -> ->]|Hin].
  - rewrite String.eqb_refl. reflexivity.
  - destruct (String.eqb k t) eqn:Hk.
    + apply String.eqb_eq in Hk. subst k. exfalso. apply Hnotin.
      apply (in_map fst) in Hin. exact Hin.
    + apply IH; assumption.
Qed.

Lemma camera_files_get_missing (files : list (timestamp * camera_file_group))
    (t : timestamp) :
  ~ In t (map fst files) -> camera_files_get files t = inl (KeyError t).
Proof.
  induction files as [|[k g] files IH]; intros Hnotin; [reflexivity|].
  cbn [camera_files_get]. cbn [map fst] in Hnotin.
  destruct (String.eqb k t) eqn:Hk.
  - apply String.eqb_eq in Hk. exfalso. apply Hnotin. left. exact Hk.
  - apply IH. intros Hin. apply Hnotin. right. exact Hin.
Qed.

Lemma serial_range_json (d : timestamp * camera_file_group) :
  serial_range d <> None -> exists vj, get_json_file (snd d) = Some vj.
Proof.
  unfold serial_range. destruct (get_json_file (snd d)) as [vj|]; [|congruence].
  intros _. exists vj. reflexivity.
Qed.

(** X6.  In a camera directory with distinct keys, every timestamp the scan
    selects is found again by the processing loop, with its JSON file: a
    run that scanned never raises the missing-key exception of line 115 on
    a selected timestamp and never takes the "No JSON file" branch of
    lines 118-120 for it. *)
Theorem selected_groups_resolve (s e : Z)
    (files : list (timestamp * camera_file_group)) (t : timestamp) :
  NoDup (map fst files) ->
  In t (snd (overlap_scan s e files)) ->
  exists g vj,
    camera_files_get files t = inr g
    /\ get_json_file g = Some vj
    /\ overlaps s e (t, g) = true.
Proof.
  intros Hnd Hin. apply overlap_scan_selected_In in Hin.
  destruct Hin as (g & Hg & Hres & Hbelow & Hstop).
  pose proof (kept_descriptor_overlaps s e (t, g) Hres Hbelow Hstop) as Hov.
  destruct (serial_range_json (t, g)) as [vj Hvj].
  { unfold overlaps in Hov. destruct (serial_range (t, g)); congruence. }
  exists g, vj. split; [apply camera_files_get_In; assumption|].
  split; [exact Hvj | exact Hov].
Qed.

Lemma selected_groups_resolve_witness :
  exists g vj,
    camera_files_get scenario_ABC "B" = inr g
    /\ get_json_file g = Some vj
    /\ overlaps 100 200 ("B", g) = true.
Proof.
  apply (selected_groups_resolve 100 200 scenario_ABC "B").
  - cbn. repeat constructor; cbn; intuition discriminate.
  - vm_compute. right. left. reflexivity.
Defined.

Lemma merge_timestamps_missing_key (inp : inputs) (s e : Z) (c : camera_serial)
    (sorted_timestamps : list timestamp) (t : timestamp) :
  In t sorted_timestamps ->
  ~ In t (map fst (camera_files inp)) ->
  exists ex, outcome (merge_timestamps inp s e c sorted_timestamps) = inl ex.
Proof.
  intros Hin Hmiss. unfold outcome.
  induction sorted_timestamps as [|t' rest IH]; [contradiction|].
  cbn [merge_timestamps].
  destruct (process_timestamp inp s e c t') as [evs [ex|r]] eqn:Hp.
  - exists ex. reflexivity.
  - rewrite bind_inr.
    destruct Hin as [->|Hin].
    + exfalso. unfold process_timestamp, lift in Hp.
      rewrite (camera_files_get_missing _ _ Hmiss) in Hp. discriminate.
    + destruct (IH Hin) as [ex Hex].
      destruct (merge_timestamps inp s e c rest) as [evs' [ex'|rs]];
        [|discriminate].
      exists ex'. reflexivity.
Qed.

(** X7.  A stale cache: when the loaded list names a timestamp that is not a
    key of the camera directory, the run of a valid configuration with at
    least one camera ends with an exception while the first camera is
    being joined, and no media call is made. *)
Theorem stale_cache_aborts (inp : inputs) (s e : Z) (cached : list timestamp)
    (t : timestamp) (c : camera_serial) (cs : list camera_serial) :
  is_config_valid inp = true ->
  verify_integrity inp = true ->
  get_column_min_max (nev_chunk_serial_df inp) = inr (s, e) ->
  load_timestamps inp = Some cached ->
  In t cached ->
  ~ In t (map fst (camera_files inp)) ->
  camera_serials inp = c :: cs ->
  (exists ex, outcome (main inp) = inl ex)
  /\ media_requests (main inp) = [].
Proof.
  intros Hvalid Hint Hrange Hload Hin Hmiss Hcams.
  assert (Hsorted : In t (sort_timestamps cached)).
  { apply (Permutation_in t (Permutation_sym (sort_timestamps_permutation cached))).
    exact Hin. }
  destruct (merge_timestamps_missing_key inp s e c _ t Hsorted Hmiss) as [ex Hex].
  pose proof (merge_timestamps_no_media inp s e c (sort_timestamps cached)) as Hnm.
  assert (Hmain : main inp
                  = ([Log INFO "NEV dataframe"; Log INFO "Start serial, End serial";
                      Log INFO "Camera serials loaded from config";
                      Log INFO "Loaded timestamps"]
                       ++ events (merge_timestamps inp s e c (sort_timestamps cached)),
                     inl ex)).
  { unfold main, process_selected, select_timestamps, logger, emit, lift, ret.
    rewrite Hvalid, Hint, Hrange, Hload, Hcams. cbn [negb].
    destruct cached as [|t0 ts]; [contradiction|].
    repeat (rewrite bind_inr; cbn [fst snd app]).
    rewrite run_cameras_cons. cbv zeta. unfold process_camera.
    unfold outcome, events in *.
    destruct (merge_timestamps inp s e c (sort_timestamps (t0 :: ts)))
      as [evs r]. cbn [snd fst] in *. subst r. reflexivity. }
  split; [exists ex; rewrite Hmain; reflexivity|].
  unfold media_requests. rewrite Hmain. unfold events at 1. cbn [fst].
  rewrite filter_app, Hnm. reflexivity.
Qed.

Lemma stale_cache_aborts_witness :
  (exists ex, outcome (main run_stale_cache) = inl ex)
  /\ media_requests (main run_stale_cache) = [].
Proof.
  apply (stale_cache_aborts run_stale_cache 100 101
           ["20240101_100000"; "19990101_000000"] "19990101_000000"
           "cam1" ["cam2"]); try reflexivity.
  - right. left. reflexivity.
  - cbn. intros [H|[]]. discriminate H.
Defined.

(** ** The rows of the inner join *)

Lemma In_chunk_serial_joined (inp : inputs) (s e : Z) (df : list rel_row)
    (j : joined_row) :
  In j (chunk_serial_joined_of inp s e df)
  <-> In (j_nev j) (nev_chunk_serial_df inp)
      /\ In (j_cam j) df
      /\ chunk_serial (j_nev j) = chunk_serial_data (cam (j_cam j))
      /\ s <= chunk_serial_data (cam (j_cam j)) <= e.
Proof.
  unfold chunk_serial_joined_of, inner_merge, restrict_to_range.
  rewrite in_flat_map. split.
  - intros (n & Hn & Hj). apply in_map_iff in Hj. destruct Hj as (r & <- & Hr).
    apply filter_In in Hr. destruct Hr as [Hr Heq].
    apply filter_In in Hr. destruct Hr as [Hr Hrange].
    cbn [j_nev j_cam]. repeat split; try assumption; lia.
  - intros (Hn & Hr & Heq & Hlo & Hhi).
    exists (j_nev j). split; [exact Hn|].
    apply in_map_iff. exists (j_cam j). split; [destruct j; reflexivity|].
    apply filter_In. split; [|lia].
    apply filter_In. split; [exact Hr | lia].
Qed.

Lemma add_frame_ids_relative_rows (frame : camera_frame) (df : list rel_row) :
  add_frame_ids_relative frame = inr df -> frame = Frame (map cam df).
Proof.
  destruct frame as [|rows]; [discriminate|].
  destruct rows as [|r0 rs]; [discriminate|].
  rewrite add_frame_ids_relative_values.
  set (rel := fun x => mk_rel_row x _). intros H.
  assert (Hdf : df = map rel (r0 :: rs)) by congruence.
  rewrite Hdf, map_map. cbn [cam rel]. rewrite map_id. reflexivity.
Qed.

(** X8.  The inner join holds exactly the pairs of an event row and a camera
    row with equal serial inside the reference range, and each keeps the
    relative frame index computed before the range filter, in the wrapping
    arithmetic of an int64 column: anchored at the first row of the whole
    camera table, also when that row is filtered out. *)
Theorem joined_rows_characterised (inp : inputs) (s e : Z)
    (r0 : camera_row) (rs : list camera_row) :
  exists df,
    add_frame_ids_relative (Frame (r0 :: rs)) = inr df
    /\ forall j,
         In j (chunk_serial_joined_of inp s e df)
         <-> In (j_nev j) (nev_chunk_serial_df inp)
             /\ In (cam (j_cam j)) (r0 :: rs)
             /\ chunk_serial (j_nev j) = chunk_serial_data (cam (j_cam j))
             /\ s <= chunk_serial_data (cam (j_cam j)) <= e
             /\ frame_ids_relative (j_cam j)
                = wrap_int64 (frame_ids_reconstructed (cam (j_cam j))
                              - frame_ids_reconstructed r0 + 1).
Proof.
  eexists. split; [apply add_frame_ids_relative_values|].
  intros j. rewrite In_chunk_serial_joined.
  set (rel := fun x => mk_rel_row x (wrap_int64 (frame_ids_reconstructed x
                                                 - frame_ids_reconstructed r0 + 1))).
  split.
  - intros (Hn & Hr & Heq & Hrange).
    apply in_map_iff in Hr. destruct Hr as (r & Hr & Hin).
    rewrite <- Hr in *. cbn [cam frame_ids_relative rel] in *.
    repeat split; try assumption; lia.
  - intros (Hn & Hr & Heq & Hrange & Hrel).
    repeat split; try assumption; try lia.
    apply in_map_iff. exists (cam (j_cam j)). split; [|exact Hr].
    unfold rel. rewrite <- Hrel. destruct (j_cam j); reflexivity.
Qed.

(** ** When a descriptor raises, and when it is skipped *)

Lemma iloc_last_of_nonempty {A} (x : A) (l : list A) :
  exists z, iloc_last (x :: l) = inr z.
Proof.
  unfold iloc_last. destruct (rev (x :: l)) as [|z r] eqn:Hr.
  - apply (f_equal (@List.length A)) in Hr. rewrite length_rev in Hr. discriminate.
  - exists z. reflexivity.
Qed.

Lemma process_timestamp_outcome (inp : inputs) (s e : Z) (c : camera_serial)
    (t : timestamp) (g : camera_file_group) (vj : Videojson) :
  camera_files_get (camera_files inp) t = inr g ->
  get_json_file g = Some vj ->
  match add_frame_ids_relative (get_camera_df vj c) with
  | inl ex => process_timestamp inp s e c t = ([], inl ex)
  | inr df =>
      match chunk_serial_joined_of inp s e df with
      | [] =>
          process_timestamp inp s e c t
          = ([Log INFO "Processing ns5 filtered channel df..."], inl IndexError)
      | _ :: _ =>
          exists first last,
            filter is_ns5_query (events (process_timestamp inp s e c t))
            = [Ns5Query (ns5_channel inp)
                        (TimeStamps (j_nev first)) (TimeStamps (j_nev last))]
            /\ match get_filtered_channel_df inp (ns5_channel inp)
                       (TimeStamps (j_nev first)) (TimeStamps (j_nev last)) with
               | inl ex => outcome (process_timestamp inp s e c t) = inl ex
               | inr _ => exists r, outcome (process_timestamp inp s e c t) = inr r
               end
      end
  end.
Proof.
  intros Hg Hvj. unfold process_timestamp, lift, logger, emit, ret.
  rewrite Hg, bind_inr, Hvj.
  destruct (add_frame_ids_relative (get_camera_df vj c)) as [ex|df]; [reflexivity|].
  rewrite bind_inr, bind_inr.
  destruct (chunk_serial_joined_of inp s e df) as [|j js] eqn:Hj; [reflexivity|].
  cbn [iloc_first]. rewrite bind_inr.
  destruct (iloc_last_of_nonempty j js) as [z Hz]. rewrite Hz.
  rewrite bind_inr, bind_inr. exists j, z. unfold outcome, events.
  destruct (get_filtered_channel_df inp (ns5_channel inp)
              (TimeStamps (j_nev j)) (TimeStamps (j_nev z))) as [ex|ns5_slice].
  - split; reflexivity.
  - rewrite bind_inr, bind_inr.
    destruct (get_mp4_file g c); rewrite ?bind_inr;
      (split; [reflexivity | eexists; reflexivity]).
Qed.

(** X9.  For a descriptor whose group and JSON file resolve: on a frame
    without the column the loop body raises the missing-key exception; on
    a frame with its columns it raises the out-of-bounds exception without
    querying the signal exactly when no event row shares a serial with a
    camera row inside the reference range (in particular when the camera
    has no row); otherwise the signal is queried once, and an exception of
    that query is the outcome of the loop body. *)
Theorem descriptor_raises_iff (inp : inputs) (s e : Z) (c : camera_serial)
    (t : timestamp) (g : camera_file_group) (vj : Videojson) :
  camera_files_get (camera_files inp) t = inr g ->
  get_json_file g = Some vj ->
  match get_camera_df vj c with
  | NoColumns =>
      process_timestamp inp s e c t = ([], inl (KeyError "frame_ids_reconstructed"))
  | Frame rows =>
      ((outcome (process_timestamp inp s e c t) = inl IndexError
        /\ filter is_ns5_query (events (process_timestamp inp s e c t)) = [])
       <-> forall n r,
             In n (nev_chunk_serial_df inp) ->
             In r rows ->
             s <= chunk_serial_data r <= e ->
             chunk_serial n <> chunk_serial_data r)
      /\ ((exists n r,
              In n (nev_chunk_serial_df inp)
              /\ In r rows
              /\ s <= chunk_serial_data r <= e
              /\ chunk_serial n = chunk_serial_data r) ->
          exists ts_start ts_end,
            filter is_ns5_query (events (process_timestamp inp s e c t))
            = [Ns5Query (ns5_channel inp) ts_start ts_end]
            /\ forall ex,
                 get_filtered_channel_df inp (ns5_channel inp) ts_start ts_end
                 = inl ex ->
                 outcome (process_timestamp inp s e c t) = inl ex)
  end.
Proof.
  intros Hg Hvj.
  pose proof (process_timestamp_outcome inp s e c t g vj Hg Hvj) as H.
  destruct (get_camera_df vj c) as [|rows] eqn:Hframe; [exact H|].
  destruct rows as [|r0 rs].
  - change (process_timestamp inp s e c t = ([], inl IndexError)) in H.
    rewrite H. unfold outcome, events. cbn [fst snd filter].
    split.
    + split; [intros _ n r _ []|]. intros _. split; reflexivity.
    + intros (n & r & _ & [] & _).
  - destruct (add_frame_ids_relative (Frame (r0 :: rs))) as [ex|df] eqn:Hdf;
      [rewrite add_frame_ids_relative_values in Hdf; discriminate|].
    pose proof (add_frame_ids_relative_rows _ _ Hdf) as Hcam.
    injection Hcam as Hcam.
    assert (Hpair : forall n r,
               In n (nev_chunk_serial_df inp) -> In r (r0 :: rs) ->
               s <= chunk_serial_data r <= e ->
               chunk_serial n = chunk_serial_data r ->
               exists x, In (mk_joined_row n x) (chunk_serial_joined_of inp s e df)).
    { intros n r Hn Hr Hrange Heq.
      rewrite Hcam in Hr. apply in_map_iff in Hr.
      destruct Hr as (x & <- & Hx). exists x.
      apply In_chunk_serial_joined. cbn [j_nev j_cam].
      repeat split; try assumption; lia. }
    destruct (chunk_serial_joined_of inp s e df) as [|j js] eqn:Hj.
    + rewrite H. unfold outcome, events. cbn [fst snd filter is_ns5_query].
      split.
      * split; [|intros _; split; reflexivity].
        intros _ n r Hn Hr Hrange Heq.
        destruct (Hpair n r Hn Hr Hrange Heq) as [x []].
      * intros (n & r & Hn & Hr & Hrange & Heq).
        destruct (Hpair n r Hn Hr Hrange Heq) as [x []].
    + destruct H as (first & last & Hq & Hout). split.
      * split; [intros [_ Hnoq]; rewrite Hq in Hnoq; discriminate|].
        intros Hnone. exfalso.
        assert (Hin : In j (chunk_serial_joined_of inp s e df))
          by (rewrite Hj; left; reflexivity).
        apply In_chunk_serial_joined in Hin.
        destruct Hin as (Hn & Hc & Heq & Hrange).
        apply (Hnone (j_nev j) (cam (j_cam j))); try assumption.
        rewrite Hcam. apply in_map. exact Hc.
      * intros _. exists (TimeStamps (j_nev first)), (TimeStamps (j_nev last)).
        split; [exact Hq|].
        intros ex Hex. rewrite Hex in Hout. exact Hout.
Qed.

Lemma descriptor_raises_iff_witness :
  match get_camera_df (mk_Videojson (Some 150, Some 150)
       (fun k => if String.eqb k "cam0" then Frame []
                 else Frame [mk_camera_row 150 1 41])) "cam1" with
  | NoColumns =>
      process_timestamp run_empty_join 100 200 "cam1" "20240101_100000" = ([], inl (KeyError "frame_ids_reconstructed"))
  | Frame rows =>
      ((outcome (process_timestamp run_empty_join 100 200 "cam1" "20240101_100000") = inl IndexError
        /\ filter is_ns5_query (events (process_timestamp run_empty_join 100 200 "cam1" "20240101_100000")) = [])
       <-> forall n r,
             In n (nev_chunk_serial_df run_empty_join) ->
             In r rows ->
             100 <= chunk_serial_data r <= 200 ->
             chunk_serial n <> chunk_serial_data r)
      /\ ((exists n r,
              In n (nev_chunk_serial_df run_empty_join)
              /\ In r rows
              /\ 100 <= chunk_serial_data r <= 200
              /\ chunk_serial n = chunk_serial_data r) ->
          exists ts_start ts_end,
            filter is_ns5_query (events (process_timestamp run_empty_join 100 200 "cam1" "20240101_100000"))
            = [Ns5Query (ns5_channel run_empty_join) ts_start ts_end]
            /\ forall ex,
                 get_filtered_channel_df run_empty_join (ns5_channel run_empty_join) ts_start ts_end
                 = inl ex ->
                 outcome (process_timestamp run_empty_join 100 200 "cam1" "20240101_100000") = inl ex)
  end.
Proof.
  apply (descriptor_raises_iff run_empty_join 100 200 "cam1" "20240101_100000"
           (group_of "a" (Some 150, Some 150) [mk_camera_row 150 1 41])
           (mk_Videojson (Some 150, Some 150)
              (fun k => if String.eqb k "cam0" then Frame []
                        else Frame [mk_camera_row 150 1 41])));
    reflexivity.
Defined.

(** X10.  A descriptor is passed over ([continue]) in two cases only: its JSON
    file is missing, and then nothing else happened; or its video for the
    camera is missing, and then its rows were already joined and the
    signal was already queried once. *)
Theorem descriptor_skipped_cases (inp : inputs) (s e : Z) (c : camera_serial)
    (t : timestamp) (evs : list event) :
  process_timestamp inp s e c t = (evs, inr None) ->
  exists g,
    camera_files_get (camera_files inp) t = inr g
    /\ ((get_json_file g = None
         /\ evs = [Log ERROR ("No JSON file found in group " +++ t)])
        \/ (get_json_file g <> None
            /\ get_mp4_file g c = None
            /\ exists ts_start ts_end,
                 evs = [Log INFO "Processing ns5 filtered channel df...";
                        Ns5Query (ns5_channel inp) ts_start ts_end;
                        Log INFO "Merging ns5 and chunk serial df...";
                        Log ERROR ("No MP4 file found in group " +++ t)])).
Proof.
  unfold process_timestamp, lift, logger, emit, ret.
  destruct (camera_files_get (camera_files inp) t) as [ex|g]; [discriminate|].
  rewrite bind_inr. intros H. exists g. split; [reflexivity|].
  destruct (get_json_file g) as [vj|].
  - right. split; [discriminate|].
    destruct (add_frame_ids_relative (get_camera_df vj c)) as [ex|df];
      [discriminate|].
    rewrite bind_inr, bind_inr in H.
    destruct (iloc_first (chunk_serial_joined_of inp s e df)) as [ex|first];
      [discriminate|].
    rewrite bind_inr in H.
    destruct (iloc_last (chunk_serial_joined_of inp s e df)) as [ex|last];
      [discriminate|].
    rewrite !bind_inr in H.
    destruct (get_filtered_channel_df inp (ns5_channel inp)
                (TimeStamps (j_nev first)) (TimeStamps (j_nev last)))
      as [ex|ns5_slice]; [discriminate|].
    rewrite ?bind_inr in H.
    destruct (get_mp4_file g c) as [mp4_path|]; [discriminate|].
    split; [reflexivity|].
    rewrite ?bind_inr in H. cbn in H. injection H as <-.
    eexists. eexists. reflexivity.
  - left. split; [reflexivity|].
    rewrite ?bind_inr in H. cbn in H. injection H as <-. reflexivity.
Qed.

Lemma descriptor_skipped_cases_witness :
  exists g,
    camera_files_get (camera_files run_without_mp4) "20240101_100000" = inr g
    /\ ((get_json_file g = None
         /\ [Log INFO "Processing ns5 filtered channel df...";
             Ns5Query 1 1000 1001;
             Log INFO "Merging ns5 and chunk serial df...";
             Log ERROR "No MP4 file found in group 20240101_100000"]
            = [Log ERROR ("No JSON file found in group " +++ "20240101_100000")])
        \/ (get_json_file g <> None
            /\ get_mp4_file g "cam1" = None
            /\ exists ts_start ts_end,
                 [Log INFO "Processing ns5 filtered channel df...";
                  Ns5Query 1 1000 1001;
                  Log INFO "Merging ns5 and chunk serial df...";
                  Log ERROR "No MP4 file found in group 20240101_100000"]
                 = [Log INFO "Processing ns5 filtered channel df...";
                    Ns5Query (ns5_channel run_without_mp4) ts_start ts_end;
                    Log INFO "Merging ns5 and chunk serial df...";
                    Log ERROR ("No MP4 file found in group " +++ "20240101_100000")])).
Proof.
  apply (descriptor_skipped_cases run_without_mp4 100 101 "cam1" "20240101_100000").
  vm_compute. reflexivity.
Defined.

(** ** The rows of the sub-clips *)

Lemma rows_of_file_cons (r : out_row) (df : list out_row) (f : path) :
  rows_of_file (r :: df) f
  = if String.eqb (mp4_file r) f then r :: rows_of_file df f else rows_of_file df f.
Proof. reflexivity. Qed.

Lemma flat_map_rows_cons (r : out_row) (df : list out_row) (files : list path) :
  NoDup files -> In (mp4_file r) files ->
  Permutation (flat_map (rows_of_file (r :: df)) files)
              (r :: flat_map (rows_of_file df) files).
Proof.
  induction files as [|f files IH]; intros Hnd Hin; [contradiction|].
  inversion Hnd as [|x l Hnotin Hnd']; subst.
  cbn [flat_map]. rewrite rows_of_file_cons.
  destruct (String.eqb (mp4_file r) f) eqn:Hf.
  - apply String.eqb_eq in Hf. subst f. cbn [app]. constructor.
    apply Permutation_app_head.
    clear IH Hnd Hin Hnd'.
    induction files as [|f' files IH']; [reflexivity|].
    cbn [flat_map]. rewrite rows_of_file_cons.
    destruct (String.eqb (mp4_file r) f') eqn:Hf'.
    + apply String.eqb_eq in Hf'. exfalso. apply Hnotin. left. auto.
    + apply Permutation_app_head. apply IH'.
      intros Hin. apply Hnotin. right. exact Hin.
  - destruct Hin as [Heq|Hin].
    + subst f. rewrite String.eqb_refl in Hf. discriminate.
    + rewrite (IH Hnd' Hin). symmetry. apply Permutation_middle.
Qed.

Lemma flat_map_rows_permutation (df : list out_row) (files : list path) :
  NoDup files ->
  (forall r, In r df -> In (mp4_file r) files) ->
  Permutation (flat_map (rows_of_file df) files) df.
Proof.
  intros Hnd. induction df as [|r df IH]; intros Hall.
  - clear. induction files as [|f files IHf]; [reflexivity | exact IHf].
  - rewrite flat_map_rows_cons; [|exact Hnd | apply Hall; left; reflexivity].
    constructor. apply IH. intros r' Hr'. apply Hall. right. exact Hr'.
Qed.

(** X11.  The sub-clips partition the rows of a camera: every row goes to the
    sub-clip of its video file and to no other, in its original order
    there, and no sub-clip is requested with an empty row set. *)
Theorem subclip_rows_partition (df : list out_row) :
  Permutation (flat_map (rows_of_file df) (unique (map mp4_file df))) df
  /\ forall f,
       In f (unique (map mp4_file df)) ->
       rows_of_file df f <> []
       /\ rows_of_file df f = filter (fun r => String.eqb (mp4_file r) f) df
       /\ Forall (fun r => mp4_file r = f) (rows_of_file df f).
Proof.
  split.
  - apply flat_map_rows_permutation; [apply unique_from_NoDup|].
    intros r Hr. unfold unique. apply unique_from_In. split; [|intros []].
    apply in_map. exact Hr.
  - intros f Hf. unfold unique in Hf. apply unique_from_In in Hf.
    destruct Hf as [Hf _]. apply in_map_iff in Hf. destruct Hf as (r & <- & Hr).
    split; [|split; [reflexivity|]].
    + intros Hempty.
      assert (Hin : In r (rows_of_file df (mp4_file r))).
      { apply filter_In. split; [exact Hr | apply String.eqb_refl]. }
      rewrite Hempty in Hin. exact Hin.
    + apply Forall_forall. intros r' Hr'. apply filter_In in Hr'.
      apply String.eqb_eq. apply Hr'.
Qed.

(** ** Degenerate assemblies *)

(** X12.  When descriptors were merged for a camera but none of them has a row
    (the signal had no sample in any queried range), no sub-clip is
    requested and the concatenation is requested with an empty list of
    sub-clips. *)
Theorem empty_rows_request_empty_concat (inp : inputs) (s e : Z)
    (sorted_timestamps : list timestamp) (c : camera_serial)
    (evs : list event) (all_merged_list : list (list out_row)) :
  merge_timestamps inp s e c sorted_timestamps = (evs, inr all_merged_list) ->
  all_merged_list <> [] ->
  List.concat all_merged_list = [] ->
  media_requests (process_camera inp s e sorted_timestamps c)
  = [Concat [] (stitched_path inp c)].
Proof.
  intros Hm Hne Hempty.
  pose proof (merge_timestamps_no_media inp s e c sorted_timestamps) as Hnm.
  rewrite Hm in Hnm. unfold events in Hnm. cbn [fst] in Hnm.
  unfold media_requests, events, process_camera. rewrite Hm, bind_inr.
  destruct all_merged_list as [|m ms]; [contradiction|].
  assert (Hconcat : pd_concat (m :: ms) = []).
  { unfold pd_concat. apply concat_nil_Forall in Hempty.
    assert (Hint : existsb is_float_table (m :: ms) = false).
    { clear -Hempty. induction Hempty as [|x l Hx _ IH]; [reflexivity|].
      subst x. exact IH. }
    rewrite Hint. apply concat_nil_Forall. exact Hempty. }
  rewrite Hconcat. unfold assemble, finish, logger, emit, lift, ret.
  cbn [map unique unique_from make_subclips]. unfold ret.
  repeat (rewrite bind_inr; cbn [fst snd app]).
  destruct (ffmpeg_concat_mp4s inp [] (stitched_path inp c)) as [ex|[]];
    repeat (rewrite ?bind_inr; cbn [fst snd app bind]);
    rewrite filter_app, Hnm; reflexivity.
Qed.

Lemma empty_rows_request_empty_concat_witness :
  media_requests (process_camera run_silent_signal 100 101 ["20240101_100000"] "cam1")
  = [Concat [] (stitched_path run_silent_signal "cam1")].
Proof.
  apply (empty_rows_request_empty_concat run_silent_signal 100 101
           ["20240101_100000"] "cam1" (events_of_join 1000 1001) [[]]).
  - vm_compute. reflexivity.
  - discriminate.
  - reflexivity.
Defined.

(** ** What a completed run reports *)




(** ** How an exception spreads *)

Lemma merge_timestamps_raises (inp : inputs) (s e : Z) (c : camera_serial)
    (sorted_timestamps : list timestamp) (t : timestamp) :
  In t sorted_timestamps ->
  (exists ex, outcome (process_timestamp inp s e c t) = inl ex) ->
  exists ex, outcome (merge_timestamps inp s e c sorted_timestamps) = inl ex.
Proof.
  intros Hin [ex Hex]. unfold outcome in *.
  induction sorted_timestamps as [|t' rest IH]; [contradiction|].
  cbn [merge_timestamps].
  destruct (process_timestamp inp s e c t') as [evs [ex'|r]] eqn:Hp.
  - exists ex'. reflexivity.
  - rewrite bind_inr.
    destruct Hin as [->|Hin]; [rewrite Hp in Hex; discriminate|].
    destruct (IH Hin) as [ex'' Hex''].
    destruct (merge_timestamps inp s e c rest) as [evs' [ex3|rs]]; [|discriminate].
    exists ex3. reflexivity.
Qed.

(** X14.  Nothing in the loops catches an exception: when the loop body raises
    for one selected timestamp and one configured camera, the loop over
    the cameras ends with an exception, whatever the other timestamps and
    cameras are. *)
Theorem one_failing_descriptor_fails_the_run (inp : inputs) (s e : Z)
    (sorted_timestamps : list timestamp) (cameras : list camera_serial)
    (c : camera_serial) (t : timestamp) :
  In c cameras ->
  In t sorted_timestamps ->
  (exists ex, outcome (process_timestamp inp s e c t) = inl ex) ->
  exists ex, outcome (run_cameras inp s e sorted_timestamps cameras) = inl ex.
Proof.
  intros Hc Ht Hraise. unfold outcome.
  induction cameras as [|c' cameras IH]; [contradiction|].
  rewrite run_cameras_cons. cbv zeta.
  destruct (snd (process_camera inp s e sorted_timestamps c')) as [ex|out] eqn:Hp.
  - exists ex. reflexivity.
  - destruct Hc as [->|Hc].
    + exfalso.
      destruct (merge_timestamps_raises inp s e c sorted_timestamps t Ht Hraise)
        as [ex Hex].
      unfold process_camera, outcome in *.
      destruct (merge_timestamps inp s e c sorted_timestamps) as [evs r].
      cbn [snd] in Hex. subst r. discriminate Hp.
    + destruct (IH Hc) as [ex Hex]. cbn [snd]. rewrite Hex.
      exists ex. reflexivity.
Qed.

Lemma one_failing_descriptor_fails_the_run_witness :
  exists ex,
    outcome (run_cameras run_empty_rows 100 101 ["20240101_100000"] ["cam1"; "cam0"])
    = inl ex.
Proof.
  apply (one_failing_descriptor_fails_the_run run_empty_rows 100 101
           ["20240101_100000"] ["cam1"; "cam0"] "cam0" "20240101_100000").
  - right. left. reflexivity.
  - left. reflexivity.
  - exists IndexError. reflexivity.
Defined.
